(** * uRing Mapper: department hierarchy and board discovery

    A shallow embedding of the Mapper crawler
    ([Mapper/src/utils/selectors.py], [Mapper/src/utils/http.py],
    [Mapper/src/crawlers/boards.py], [Mapper/src/crawlers/departments.py],
    [Mapper/src/config.py], [Mapper/src/main.py]) and the properties of its
    specification.

    Python strings are sequences of Unicode code points, dictionaries that
    are only looked up are finite maps, the network and the Python library
    ([str.lower], [urllib.parse], [re] with [re.I], the HTML parser) are an
    explicit environment. The [ValueError] that [urllib.parse] raises is
    an outcome of the calls that reach it: nothing in the crawler catches
    it. *)

From Stdlib Require Import String Ascii NArith ZArith List Bool Lia DecimalN.
From stdpp Require Import base option list gmap.
Import ListNotations.

Local Open Scope N_scope.

(** ** Python strings *)

(** A character is a code point, a [str] a sequence of them. *)
Definition char : Type := N.
Definition str : Type := list N.

(** Decoding of the UTF-8 bytes of a literal of this file into code points,
    so that the Korean literals of the source can be written as they are. *)
Fixpoint utf8_decode (bs : list N) : str :=
  match bs with
  | [] => []
  | b0 :: r0 =>
    if b0 <? 128 then b0 :: utf8_decode r0
    else
      match r0 with
      | [] => []
      | b1 :: r1 =>
        if b0 <? 224 then ((b0 - 192) * 64 + (b1 - 128)) :: utf8_decode r1
        else
          match r1 with
          | [] => []
          | b2 :: r2 =>
            if b0 <? 240
            then (((b0 - 224) * 64 + (b1 - 128)) * 64 + (b2 - 128))
                   :: utf8_decode r2
            else
              match r2 with
              | [] => []
              | b3 :: r3 =>
                ((((b0 - 240) * 64 + (b1 - 128)) * 64 + (b2 - 128)) * 64
                   + (b3 - 128)) :: utf8_decode r3
              end
          end
      end
  end.

Definition str_of_literal (s : string) : str :=
  utf8_decode (map N_of_ascii (list_ascii_of_string s)).

(** [u "text"] is the [str] of a literal, computed where it is written. *)
Notation "'u' s" :=
  (ltac:(let v := eval vm_compute in (str_of_literal s%string) in exact v))
  (at level 10, s at level 0, only parsing).

(** [s.startswith(p)] *)
Fixpoint startswith (p s : str) : bool :=
  match p, s with
  | [], _ => true
  | _ :: _, [] => false
  | c :: p', d :: s' => (c =? d) && startswith p' s'
  end.

(** [p in s] *)
Fixpoint contains (p s : str) : bool :=
  startswith p s ||
  match s with
  | [] => false
  | _ :: s' => contains p s'
  end.

(** [s.replace(a, b)] for one-character [a] and [b]. *)
Definition replace_char (a b : char) (s : str) : str :=
  map (fun c => if c =? a then b else c) s.

(** [str.isspace] on one character: the code points Python 3.11 takes for
    white space. *)
Definition isspace (c : char) : bool :=
  ((9 <=? c) && (c <=? 13)) || ((28 <=? c) && (c <=? 32))
  || (c =? 133) || (c =? 160) || (c =? 5760)
  || ((8192 <=? c) && (c <=? 8202))
  || (c =? 8232) || (c =? 8233) || (c =? 8239) || (c =? 8287) || (c =? 12288).

(** [s.lstrip(chars)], the stripped characters given by a test. *)
Fixpoint lstrip_while (f : char -> bool) (s : str) : str :=
  match s with
  | [] => []
  | c :: s' => if f c then lstrip_while f s' else s
  end.

Definition lstrip (s : str) : str := lstrip_while isspace s.

Definition rstrip (s : str) : str := rev (lstrip (rev s)).

(** [s.strip()] *)
Definition strip (s : str) : str := rstrip (lstrip s).

(** [str(n)] for a non-negative integer. *)
Fixpoint uint_digits (d : Decimal.uint) : str :=
  match d with
  | Decimal.Nil => []
  | Decimal.D0 d => 48 :: uint_digits d
  | Decimal.D1 d => 49 :: uint_digits d
  | Decimal.D2 d => 50 :: uint_digits d
  | Decimal.D3 d => 51 :: uint_digits d
  | Decimal.D4 d => 52 :: uint_digits d
  | Decimal.D5 d => 53 :: uint_digits d
  | Decimal.D6 d => 54 :: uint_digits d
  | Decimal.D7 d => 55 :: uint_digits d
  | Decimal.D8 d => 56 :: uint_digits d
  | Decimal.D9 d => 57 :: uint_digits d
  end.

Definition str_of_int (n : N) : str := uint_digits (N.to_uint n).

(** The truth value of a string: [""] is false. *)
Definition truthy (s : str) : bool :=
  match s with [] => false | _ => true end.

(** ** The document model

    What the code reads of a parsed document ([BeautifulSoup]): its
    serialisation, its anchors in document order, and the [h1] headings of
    its [main] element. *)

Record Anchor := {
  a_href : option str;      (* link.get("href") *)
  a_text : str;             (* link.get_text(strip=True) *)
  a_string : option str     (* link.string *)
}.

Record Header := {
  h_text : str;                       (* header.get_text(strip=True) *)
  h_siblings : list (list Anchor)
    (* header.parent.find_next_siblings(["div", "p", "span"]): for each
       sibling, its anchors in document order *)
}.

Record Soup := {
  markup : str;                       (* str(soup) *)
  anchors : list Anchor;              (* soup.find_all("a") *)
  main_h1 : option (list Header)      (* soup.find("main").find_all("h1") *)
}.

(** [c.lower()] for an ASCII character. *)
Definition ascii_lower (c : char) : char :=
  if (65 <=? c) && (c <=? 90) then c + 32 else c.

(** ** Exceptions

    A call that may raise gives its result or the exception raised.
    [ValueError] is what [urllib.parse] raises on a bracketed host that is
    not well formed, [KeyError] stands for what reading a key of a value
    that has no such key raises. *)
Inductive exn := ValueError | KeyError.

Inductive exc (A : Type) :=
| Ok (a : A)
| Raise (e : exn).
Arguments Ok {A} _.
Arguments Raise {A} _.

#[global] Instance exc_ret : MRet exc := fun A a => Ok a.
#[global] Instance exc_bind : MBind exc := fun A B k m =>
  match m with
  | Ok a => k a
  | Raise e => Raise e
  end.

(** ** The environment: Python's library and the network *)
Class Env := {
  (** [s.lower()] *)
  lower : str -> str;
  (** on ASCII text, [lower] maps A-Z to a-z and nothing else *)
  lower_ascii : forall s,
    forallb (fun c => c <? 128) s = true ->
    lower s = map ascii_lower s;
  (** [urllib.parse.urljoin(base, url)], which may raise *)
  urljoin : str -> str -> exc str;
  (** [urllib.parse.urlparse(url).netloc], which may raise *)
  urlparse_netloc : str -> exc str;
  (** does pattern character [p] match [c] under [re.I] *)
  re_ichar : char -> char -> bool;
  (** [requests.get(url, headers, timeout)] followed by
      [raise_for_status()]: the text of the response, [None] when a
      [RequestException] is raised *)
  requests_get : str -> Z -> option str;
  (** [BeautifulSoup(text, "html.parser")] *)
  BeautifulSoup : str -> Soup
}.

(** ** Effects: the calls a crawl makes

    A computation returns its value with the calls it made, in order. *)
Inductive Call :=
| CallGetSoup (url : str) (timeout : Z)
| CallExtract (soup : Soup) (base_url : str).

Definition Eff (A : Type) : Type := (A * list Call)%type.

#[global] Instance eff_ret : MRet Eff := fun A a => (a, []).
#[global] Instance eff_bind : MBind Eff := fun A B k m =>
  let (a, l1) := m in let (b, l2) := k a in (b, l1 ++ l2).
Definition tell (c : Call) : Eff unit := (tt, [c]).
Definition value {A} (m : Eff A) : A := fst m.
Definition calls {A} (m : Eff A) : list Call := snd m.

(** A computation that makes calls and may raise: it gives its value or the
    exception, with the calls made until then. *)
Definition EffExc (A : Type) : Type := Eff (exc A).

#[global] Instance effexc_ret : MRet EffExc := fun A a => (Ok a, []).
#[global] Instance effexc_bind : MBind EffExc := fun A B k m =>
  let (r, l1) := m in
  match r with
  | Ok a => let (b, l2) := k a in (b, l1 ++ l2)
  | Raise e => (Raise e, l1)
  end.

(** [lift m] is a computation that does not raise, [raising r] a call that
    may raise and is not in the log. *)
Definition lift {A} (m : Eff A) : EffExc A := (Ok (fst m), snd m).
Definition raising {A} (r : exc A) : EffExc A := (r, []).

(** ** [config.py] *)

Definition REQUEST_TIMEOUT : Z := 10%Z.

Record KeywordMeta := { meta_id : str; meta_name : str }.

(** [KEYWORD_MAP], in the order of the dictionary's items. *)
Definition KEYWORD_MAP : list (str * KeywordMeta) :=
  [ (u "학부공지", {| meta_id := u "academic"; meta_name := u "학사공지" |});
    (u "대학원공지", {| meta_id := u "grad_notice"; meta_name := u "대학원공지" |});
    (u "장학", {| meta_id := u "scholarship"; meta_name := u "장학공지" |});
    (u "취업", {| meta_id := u "career"; meta_name := u "취업/진로" |});
    (u "공지사항", {| meta_id := u "notice"; meta_name := u "일반공지" |});
    (u "학사공지", {| meta_id := u "academic"; meta_name := u "학사공지" |}) ].

(** ** Entities *)

(** The values [to_dict] builds and [json.dump] writes: strings, lists and
    dictionaries with their items in insertion order. *)
#[warnings="-register-all"] Inductive json :=
| JStr (s : str)
| JList (l : list json)
| JDict (items : list (str * json)).

(** The four-key dictionary of selectors. *)
Record Selectors := {
  row_selector : str;
  title_selector : str;
  date_selector : str;
  attr_name : str
}.

Module Board.
Record t := {
  id : str;
  name : str;
  url : str;
  row_selector : str;
  title_selector : str;
  date_selector : str;
  attr_name : str
}.

Definition to_dict (self : t) : json :=
  JDict [ (u "id", JStr (id self));
          (u "name", JStr (name self));
          (u "url", JStr (url self));
          (u "row_selector", JStr (row_selector self));
          (u "title_selector", JStr (title_selector self));
          (u "date_selector", JStr (date_selector self));
          (u "attr_name", JStr (attr_name self)) ].
End Board.

Module ManualReviewItem.
Record t := {
  campus : str;
  name : str;
  url : str;
  reason : str
}.

Definition to_dict (self : t) : json :=
  JDict [ (u "campus", JStr (campus self));
          (u "name", JStr (name self));
          (u "url", JStr (url self));
          (u "reason", JStr (reason self)) ].
End ManualReviewItem.

Module BoardDiscoveryResult.
Record t := {
  boards : list Board.t;
  manual_review : option ManualReviewItem.t
}.
End BoardDiscoveryResult.

(** The [dept_info] dictionary of [discover_boards]. *)
Module DeptInfo.
Record t := { campus : str; name : str }.
End DeptInfo.

(** [Department.boards] is an untyped [list] that [to_dict] emits as it is:
    the record is polymorphic in what the list holds, [Board]s in the entity
    tree and their dictionaries ([main.py]: [[b.to_dict() for b in
    result.boards]]) in what is written out. *)
Module Department.
Record t (B : Type) := {
  id : str;
  name : str;
  url : str;
  boards : list B
}.
Arguments id {B} _.
Arguments name {B} _.
Arguments url {B} _.
Arguments boards {B} _.
Arguments Build_t {B} _ _ _ _.

Definition to_dict (self : t json) : json :=
  JDict [ (u "id", JStr (id self));
          (u "name", JStr (name self));
          (u "url", JStr (url self));
          (u "boards", JList (boards self)) ].

Definition map_boards {A B} (f : A -> B) (self : t A) : t B :=
  {| id := id self; name := name self; url := url self;
     boards := map f (boards self) |}.
End Department.

Module College.
Record t (B : Type) := {
  name : str;
  departments : list (Department.t B)
}.
Arguments name {B} _.
Arguments departments {B} _.
Arguments Build_t {B} _ _.

Definition to_dict (self : t json) : json :=
  JDict [ (u "name", JStr (name self));
          (u "departments",
           JList (map Department.to_dict (departments self))) ].

Definition map_boards {A B} (f : A -> B) (self : t A) : t B :=
  {| name := name self;
     departments := map (Department.map_boards f) (departments self) |}.
End College.

Module Campus.
Record t (B : Type) := {
  campus : str;
  colleges : list (College.t B)
}.
Arguments campus {B} _.
Arguments colleges {B} _.
Arguments Build_t {B} _ _.

Definition to_dict (self : t json) : json :=
  JDict [ (u "campus", JStr (campus self));
          (u "colleges", JList (map College.to_dict (colleges self))) ].

Definition map_boards {A B} (f : A -> B) (self : t A) : t B :=
  {| campus := campus self;
     colleges := map (College.map_boards f) (colleges self) |}.
End Campus.

(** The output shape of an entity tree: [Campus.to_dict] over the tree whose
    board lists hold the boards' dictionaries. *)
Definition serialize_campus (c : Campus.t Board.t) : json :=
  Campus.to_dict (Campus.map_boards Board.to_dict c).

(** [Board(id=..., name=..., url=..., **selectors)] *)
Definition make_board (id name url : str) (selectors : Selectors) : Board.t :=
  {| Board.id := id; Board.name := name; Board.url := url;
     Board.row_selector := row_selector selectors;
     Board.title_selector := title_selector selectors;
     Board.date_selector := date_selector selectors;
     Board.attr_name := attr_name selectors |}.

(** The selectors a board carries. *)
Definition board_selectors (b : Board.t) : Selectors :=
  {| row_selector := Board.row_selector b;
     title_selector := Board.title_selector b;
     date_selector := Board.date_selector b;
     attr_name := Board.attr_name b |}.

(** The two dictionaries [detect_cms_selectors] returns. *)
Definition yonsei_cms_selectors : Selectors :=
  {| row_selector := u "tr:has(a.c-board-title)";
     title_selector := u "a.c-board-title";
     date_selector := u "td:nth-last-child(1)";
     attr_name := u "href" |}.

Definition xe_board_selectors : Selectors :=
  {| row_selector :=
       u "li.xe-list-board-list--item:not(.xe-list-board-list--header)";
     title_selector := u "a.xe-list-board-list__title-link";
     date_selector := u ".xe-list-board-list__created_at";
     attr_name := u "href" |}.

(** The state of the loop of [_extract_boards_from_soup]. *)
Record ExtractState := {
  boards : list Board.t;
  seen_urls : gset str;
  id_counts : gmap str N
}.

(** [boards = []; seen_urls = set(); id_counts = {}] *)
Definition extract_init : ExtractState :=
  {| boards := []; seen_urls := ∅; id_counts := ∅ |}.

Section Crawler.
Context `{E : Env}.

(** ** [utils/selectors.py] *)

Definition detect_cms_selectors (soup : Soup) (url : str) : option Selectors :=
  let html_str := lower (markup soup) in
  if contains (u ".do") url || contains (u "c-board-title") html_str then
    Some yonsei_cms_selectors
  else if contains (u "xe-list-board") html_str
          || contains (u "xe_board") html_str then
    Some xe_board_selectors
  else None.

(** ** [utils/http.py] *)

Definition fetch_page (url : str) (timeout : Z) : option str :=
  requests_get url timeout.

Definition get_soup (url : str) (timeout : Z) : Eff (option Soup) :=
  _ ← tell (CallGetSoup url timeout);
  mret (match fetch_page url timeout with
        | Some text => Some (BeautifulSoup text)
        | None => None
        end).

(** ** [crawlers/boards.py] *)

Definition _is_valid_board_link (text href : str) : bool :=
  let blacklist := [u "articleNo"; u "article_no"; u "mode=view"; u "seq";
                    u "view.do"; u "board_seq"] in
  if existsb (fun word => contains word href) blacklist then false
  else if (20 <? length text)%nat then false
  else true.

(** [re.compile(pat, re.I).search(s)] for a pattern of literal
    characters. *)
Fixpoint re_imatch_at (pat s : str) : bool :=
  match pat, s with
  | [], _ => true
  | _ :: _, [] => false
  | p :: pat', c :: s' => re_ichar p c && re_imatch_at pat' s'
  end.

Fixpoint re_isearch (pat s : str) : bool :=
  re_imatch_at pat s ||
  match s with
  | [] => false
  | _ :: s' => re_isearch pat s'
  end.

(** [re.compile(r"사이트맵|Sitemap", re.I).search(s)] *)
Definition sitemap_pattern_search (s : str) : bool :=
  re_isearch (u "사이트맵") s || re_isearch (u "Sitemap") s.

(** [soup.find("a", string=re.compile(r"사이트맵|Sitemap", re.I))] *)
Definition find_sitemap_link (soup : Soup) : option Anchor :=
  List.find (fun a => match a_string a with
                      | Some s => sitemap_pattern_search s
                      | None => false
                      end) (anchors soup).

Definition _find_sitemap (soup : Soup) (base_url : str)
    : EffExc (option Soup) :=
  match find_sitemap_link soup with
  | Some sitemap_link =>
    match a_href sitemap_link with
    | Some href =>
      if truthy href then
        sitemap_url ← raising (urljoin base_url href);
        sitemap_soup ← lift (get_soup sitemap_url 5);
        mret sitemap_soup
      else mret None
    | None => mret None
    end
  | None => mret None
  end.

(** [a or b] on dictionaries that may be [None]. *)
Definition py_or {A} (a b : option A) : option A :=
  match a with
  | Some x => Some x
  | None => b
  end.

(** The end of a turn that makes a board: the counter of [base_id], the
    final id, the new board and the mark on its URL. *)
Definition add_board (st : ExtractState) (meta : KeywordMeta)
    (text full_url : str) (selectors : Selectors) : ExtractState :=
  let base_id := meta_id meta in
  let count := default 0 (id_counts st !! base_id) + 1 in
  let final_id :=
    if 1 <? count then base_id ++ u "_" ++ str_of_int count
    else base_id in
  {| boards := boards st ++
       [make_board final_id
          (if truthy text then text else meta_name meta)
          full_url selectors];
     seen_urls := {[full_url]} ∪ seen_urls st;
     id_counts := <[base_id := count]> (id_counts st) |}.

(** The loop over [KEYWORD_MAP.items()] for one link: [continue] goes on
    with the next keyword, [break] leaves with the new state. *)
Fixpoint extract_keywords (soup : Soup) (default_selectors : option Selectors)
    (text full_url : str) (items : list (str * KeywordMeta))
    (st : ExtractState) : ExtractState :=
  match items with
  | [] => st
  | (keyword, meta) :: items' =>
    if negb (contains keyword text) then
      extract_keywords soup default_selectors text full_url items' st
    else
      match py_or (detect_cms_selectors soup full_url) default_selectors with
      | None => extract_keywords soup default_selectors text full_url items' st
      | Some selectors => add_board st meta text full_url selectors
      end
  end.

(** One turn of the loop over [soup.find_all("a", href=True)], which has
    the links with an [href] attribute alone: the others are passed. An
    exception of [urljoin] or [urlparse] ends the turn and the loop. *)
Definition extract_link (soup : Soup) (base_url base_domain : str)
    (default_selectors : option Selectors) (st : ExtractState)
    (link : Anchor) : exc ExtractState :=
  match a_href link with
  | None => Ok st
  | Some href =>
    let text := a_text link in
    if negb (_is_valid_board_link text href) then Ok st
    else
      full_url ← urljoin base_url href;
      if bool_decide (full_url ∈ seen_urls st)
         || contains (u "javascript") href || contains (u "#") href then Ok st
      else
        netloc ← urlparse_netloc full_url;
        let link_domain := lower netloc in
        if bool_decide (link_domain ≠ base_domain) then Ok st
        else Ok (extract_keywords soup default_selectors text full_url
                   KEYWORD_MAP st)
  end.

(** The loop over the links, from the state [st]. *)
Fixpoint extract_links (soup : Soup) (base_url base_domain : str)
    (default_selectors : option Selectors) (links : list Anchor)
    (st : ExtractState) : exc ExtractState :=
  match links with
  | [] => Ok st
  | link :: links' =>
    st' ← extract_link soup base_url base_domain default_selectors st link;
    extract_links soup base_url base_domain default_selectors links' st'
  end.

Definition _extract_boards_from_soup (soup : Soup) (base_url : str)
    (default_selectors : option Selectors) : exc (list Board.t) :=
  netloc ← urlparse_netloc base_url;
  let base_domain := lower netloc in
  st ← extract_links soup base_url base_domain default_selectors
         (anchors soup) extract_init;
  Ok (boards st).

(** The call of [_extract_boards_from_soup] as [discover_boards] makes
    it. *)
Definition call_extract (soup : Soup) (base_url : str)
    (default_selectors : option Selectors) : EffExc (list Board.t) :=
  _ ← lift (tell (CallExtract soup base_url));
  raising (_extract_boards_from_soup soup base_url default_selectors).

Definition discover_boards (dept_info : DeptInfo.t) (dept_url : str)
    : EffExc BoardDiscoveryResult.t :=
  if bool_decide (dept_url = u "NOT_FOUND")
     || negb (startswith (u "http") dept_url) then
    mret {| BoardDiscoveryResult.boards := [];
            BoardDiscoveryResult.manual_review := Some
              {| ManualReviewItem.campus := DeptInfo.campus dept_info;
                 ManualReviewItem.name := DeptInfo.name dept_info;
                 ManualReviewItem.url := dept_url;
                 ManualReviewItem.reason := u "Homepage URL is invalid" |} |}
  else
    soup ← lift (get_soup dept_url 7);
    match soup with
    | None =>
      mret {| BoardDiscoveryResult.boards := [];
              BoardDiscoveryResult.manual_review := Some
                {| ManualReviewItem.campus := DeptInfo.campus dept_info;
                   ManualReviewItem.name := DeptInfo.name dept_info;
                   ManualReviewItem.url := dept_url;
                   ManualReviewItem.reason := u "Failed to fetch homepage" |} |}
    | Some soup =>
      let default_selectors := detect_cms_selectors soup dept_url in
      let homepage :=
        boards ← call_extract soup dept_url default_selectors;
        mret {| BoardDiscoveryResult.boards := boards;
                BoardDiscoveryResult.manual_review := None |} in
      sitemap_soup ← _find_sitemap soup dept_url;
      match sitemap_soup with
      | Some sitemap_soup =>
        boards ← call_extract sitemap_soup dept_url default_selectors;
        match boards with
        | _ :: _ =>
          mret {| BoardDiscoveryResult.boards := boards;
                  BoardDiscoveryResult.manual_review := None |}
        | [] => homepage
        end
      | None => homepage
      end
    end.

(** ** [crawlers/departments.py] *)

(** [re.sub(marker + ".*", "", s)]: every occurrence of [marker] goes with
    the rest of its line ([.] matches all but a newline). [skipping] says
    that a match is being consumed. *)
Fixpoint re_sub_tail (marker : str) (skipping : bool) (s : str) : str :=
  match s with
  | [] => []
  | c :: s' =>
    if skipping then
      if c =? 10 then c :: re_sub_tail marker false s'
      else re_sub_tail marker true s'
    else if startswith marker s then re_sub_tail marker true s'
    else c :: re_sub_tail marker false s'
  end.

(** [[가-힣]] *)
Definition is_hangul (c : char) : bool := (44032 <=? c) && (c <=? 55203).

(** [대학$] at the start of [s]: [$] matches at the end and before a final
    newline. *)
Definition daehak_at_end (s : str) : bool :=
  bool_decide (s = u "대학") || bool_decide (s = u "대학" ++ [10]).

(** [[가-힣]+대학$] at the start of [s]. *)
Fixpoint college_pattern_match_at (s : str) : bool :=
  match s with
  | [] => false
  | c :: s' => is_hangul c && (daehak_at_end s' || college_pattern_match_at s')
  end.

(** [re.compile(r"([가-힣]+대학)$").search(text)] *)
Fixpoint college_pattern_search (text : str) : bool :=
  college_pattern_match_at text ||
  match text with
  | [] => false
  | _ :: text' => college_pattern_search text'
  end.

(** [sibling.find("a", string=lambda x: x and "홈페이지" in x)] *)
Definition find_homepage_link (sibling : list Anchor) : option Anchor :=
  List.find (fun a => match a_string a with
                      | Some x => truthy x && contains (u "홈페이지") x
                      | None => false
                      end) sibling.

Fixpoint extract_department_url_loop (siblings : list (list Anchor)) : str :=
  match siblings with
  | [] => u "NOT_FOUND"
  | sibling :: siblings' =>
    match find_homepage_link sibling with
    | Some homepage_link =>
      match a_href homepage_link with
      | Some href =>
        if truthy href && negb (startswith (u "#") href) then href
        else extract_department_url_loop siblings'
      | None => extract_department_url_loop siblings'
      end
    | None => extract_department_url_loop siblings'
    end
  end.

Definition _extract_department_url (header : Header) : str :=
  extract_department_url_loop (take 3 (h_siblings header)).

(** The rest of [s] after the prefix [p]. *)
Fixpoint strip_prefix (p s : str) : option str :=
  match p, s with
  | [], _ => Some s
  | _ :: _, [] => None
  | c :: p', d :: s' => if c =? d then strip_prefix p' s' else None
  end.

(** [[^.]+] at the start of [s]: the characters before the first dot, and
    the rest. *)
Fixpoint span_no_dot (s : str) : str * str :=
  match s with
  | [] => ([], [])
  | c :: s' =>
    if c =? 46 then ([], s)
    else let (a, b) := span_no_dot s' in (c :: a, b)
  end.

(** [://([^.]+)\.yonsei\.ac\.kr] at the start of [s]: group 1. *)
Definition subdomain_after_scheme (s : str) : option str :=
  match strip_prefix (u "://") s with
  | None => None
  | Some r =>
    let (sub, rest) := span_no_dot r in
    if truthy sub && startswith (u ".yonsei.ac.kr") rest then Some sub
    else None
  end.

(** [re.match(r"https?://([^.]+)\.yonsei\.ac\.kr", url)]: group 1 of the
    match. [s?] takes an [s] first and goes without it when that fails. *)
Definition subdomain_match (url : str) : option str :=
  match strip_prefix (u "http") url with
  | None => None
  | Some r =>
    match r with
    | 115 :: r' =>
      match subdomain_after_scheme r' with
      | Some g => Some g
      | None => subdomain_after_scheme r
      end
    | _ => subdomain_after_scheme r
    end
  end.

Definition _generate_department_id (name url : str) : str :=
  let by_name := u "yonsei_" ++ replace_char 32 95 (lower name) in
  if truthy url && bool_decide (url ≠ u "NOT_FOUND") then
    match subdomain_match url with
    | Some group1 => u "yonsei_" ++ lower group1
    | None => by_name
    end
  else by_name.

(** The state of the loop of [crawl_campus]: [campus.colleges], and
    [current_college] as the position in it of the college it refers
    to. *)
Record CrawlState := {
  colleges : list (College.t Board.t);
  current_college : option nat
}.

Definition current (st : CrawlState) : option (College.t Board.t) :=
  match current_college st with
  | Some i => colleges st !! i
  | None => None
  end.

(** [text] of a header after the clean up. *)
Definition clean_header_text (header : Header) : str :=
  let text := h_text header in
  let text := re_sub_tail (u "교수진") false text in
  strip (re_sub_tail (u "홈페이지") false text).

(** [current_college = College(name=text);
     campus.colleges.append(current_college)] *)
Definition open_college (st : CrawlState) (text : str) : CrawlState :=
  {| colleges := colleges st ++ [College.Build_t text []];
     current_college := Some (length (colleges st)) |}.

(** [current_college.departments.append(d)], seen through
    [campus.colleges]. *)
Definition append_department (st : CrawlState) (i : nat)
    (d : Department.t Board.t) : CrawlState :=
  {| colleges :=
       alter (fun c => College.Build_t (College.name c)
                         (College.departments c ++ [d])) i (colleges st);
     current_college := current_college st |}.

(** One turn of the loop over [main.find_all("h1")]. *)
Definition crawl_header (st : CrawlState) (header : Header) : CrawlState :=
  let text := clean_header_text header in
  if negb (truthy text) then st
  else if college_pattern_search text then
    match current st with
    | Some c =>
      if bool_decide (College.name c = text) then st
      else open_college st text
    | None => open_college st text
    end
  else
    match current_college st, current st with
    | Some i, Some c =>
      if negb (contains (u "대학") text) then
        if existsb (fun d => bool_decide (Department.name d = text))
             (College.departments c) then st
        else
          let dept_url := _extract_department_url header in
          let dept_id := _generate_department_id text dept_url in
          append_department st i (Department.Build_t dept_id text dept_url [])
      else st
    | _, _ => st
    end.

Definition crawl_campus (url campus_name : str)
    : Eff (option (Campus.t Board.t)) :=
  soup ← get_soup url REQUEST_TIMEOUT;
  match soup with
  | None => mret None
  | Some soup =>
    match main_h1 soup with
    | None => mret None
    | Some headers =>
      let st := fold_left crawl_header headers
                  {| colleges := []; current_college := None |} in
      mret (Some (Campus.Build_t campus_name (colleges st)))
    end
  end.

End Crawler.

(** ** Reading the output back

    Modelled from the spec: the re-parsing of the output JSON shape into the
    entity tree (sections 6 and 8: the object keys mirror the entities); the
    repository writes these files and has no reader of them. *)

(** [d[key]] *)
Definition dict_get (key : str) (j : json) : option json :=
  match j with
  | JDict items =>
    match List.find (fun kv => bool_decide (fst kv = key)) items with
    | Some kv => Some (snd kv)
    | None => None
    end
  | _ => None
  end.

Definition get_str (key : str) (j : json) : option str :=
  match dict_get key j with
  | Some (JStr s) => Some s
  | _ => None
  end.

Definition get_list (key : str) (j : json) : option (list json) :=
  match dict_get key j with
  | Some (JList l) => Some l
  | _ => None
  end.

Definition parse_board (j : json) : option Board.t :=
  id ← get_str (u "id") j;
  name ← get_str (u "name") j;
  url ← get_str (u "url") j;
  row_selector ← get_str (u "row_selector") j;
  title_selector ← get_str (u "title_selector") j;
  date_selector ← get_str (u "date_selector") j;
  attr_name ← get_str (u "attr_name") j;
  Some (Board.Build_t id name url row_selector title_selector date_selector
          attr_name).

Definition parse_department (j : json) : option (Department.t Board.t) :=
  id ← get_str (u "id") j;
  name ← get_str (u "name") j;
  url ← get_str (u "url") j;
  boards ← get_list (u "boards") j;
  boards ← mapM parse_board boards;
  Some (Department.Build_t id name url boards).

Definition parse_college (j : json) : option (College.t Board.t) :=
  name ← get_str (u "name") j;
  departments ← get_list (u "departments") j;
  departments ← mapM parse_department departments;
  Some (College.Build_t name departments).

Definition parse_campus (j : json) : option (Campus.t Board.t) :=
  campus ← get_str (u "campus") j;
  colleges ← get_list (u "colleges") j;
  colleges ← mapM parse_college colleges;
  Some (Campus.Build_t campus colleges).

(** ** A concrete environment

    To run the model: ASCII case mapping, the splitting of a URL as
    [urllib.parse.urlsplit] does it, with its [ValueError] for a network
    location that has one bracket without the other, reference resolution
    without the removal of dot segments, and a network that serves a table
    of pages. *)

Fixpoint span (f : char -> bool) (s : str) : str * str :=
  match s with
  | [] => ([], [])
  | c :: s' =>
    if f c then let (a, b) := span f s' in (c :: a, b) else ([], s)
  end.

(** [s.split(sep, 1)], with an empty second part when [sep] is absent. *)
Definition split_once (sep : char) (s : str) : str * str :=
  let (a, b) := span (fun c => negb (c =? sep)) s in (a, tail b).

Definition is_ascii_alpha (c : char) : bool :=
  ((65 <=? c) && (c <=? 90)) || ((97 <=? c) && (c <=? 122)).

Definition is_scheme_char (c : char) : bool :=
  is_ascii_alpha c || ((48 <=? c) && (c <=? 57))
  || (c =? 43) || (c =? 45) || (c =? 46).

Record SplitResult := {
  sr_scheme : str;
  sr_netloc : str;
  sr_path : str;
  sr_query : str;
  sr_fragment : str
}.

(** [urllib.parse.urlsplit(url, scheme)] *)
Definition urlsplit (url default_scheme : str) : SplitResult :=
  let url := lstrip_while (fun c => c <=? 32) url in
  let url := filter (fun c => negb ((c =? 9) || (c =? 10) || (c =? 13))) url in
  let (head, rest) := span (fun c => negb (c =? 58)) url in
  let (scheme, url) :=
    match head, rest with
    | c :: _, _ :: rest' =>
      if is_ascii_alpha c && forallb is_scheme_char head
      then (map ascii_lower head, rest')
      else (default_scheme, url)
    | _, _ => (default_scheme, url)
    end in
  let (netloc, url) :=
    match url with
    | 47 :: 47 :: r =>
      span (fun c => negb ((c =? 47) || (c =? 63) || (c =? 35))) r
    | _ => ([], url)
    end in
  let (url, fragment) := split_once 35 url in
  let (url, query) := split_once 63 url in
  {| sr_scheme := scheme; sr_netloc := netloc; sr_path := url;
     sr_query := query; sr_fragment := fragment |}.

(** [urllib.parse.urlunsplit] *)
Definition urlunsplit (r : SplitResult) : str :=
  let url := sr_path r in
  let url :=
    if truthy (sr_netloc r)
       || (truthy (sr_scheme r) && negb (startswith (u "//") url))
    then u "//" ++ sr_netloc r ++
         (if truthy url && negb (startswith (u "/") url) then u "/" ++ url
          else url)
    else url in
  let url := if truthy (sr_scheme r) then sr_scheme r ++ u ":" ++ url else url in
  let url := if truthy (sr_query r) then url ++ u "?" ++ sr_query r else url in
  if truthy (sr_fragment r) then url ++ u "#" ++ sr_fragment r else url.

(** The part of a path up to its last slash. *)
Definition dirname (path : str) : str :=
  rev (snd (span (fun c => negb (c =? 47)) (rev path))).

Definition simple_urljoin (base url : str) : str :=
  if negb (truthy base) then url
  else if negb (truthy url) then base
  else
    let b := urlsplit base [] in
    let r := urlsplit url (sr_scheme b) in
    if bool_decide (sr_scheme r ≠ sr_scheme b) then url
    else if truthy (sr_netloc r) then urlunsplit r
    else if negb (truthy (sr_path r)) then
      urlunsplit {| sr_scheme := sr_scheme r; sr_netloc := sr_netloc b;
                    sr_path := sr_path b;
                    sr_query := if truthy (sr_query r) then sr_query r
                                else sr_query b;
                    sr_fragment := sr_fragment r |}
    else
      urlunsplit {| sr_scheme := sr_scheme r; sr_netloc := sr_netloc b;
                    sr_path := if startswith (u "/") (sr_path r) then sr_path r
                               else dirname (sr_path b) ++ sr_path r;
                    sr_query := sr_query r;
                    sr_fragment := sr_fragment r |}.

(** [urlsplit] raises [ValueError] (Invalid IPv6 URL) for a network
    location that has an opening square bracket and no closing one, or a
    closing one and no opening one. *)
Definition invalid_ipv6 (netloc : str) : bool :=
  xorb (existsb (fun c => c =? 91) netloc) (existsb (fun c => c =? 93) netloc).

(** [urljoin]: a base or a reference that is empty is not split; otherwise
    both are, the reference with the scheme of the base. *)
Definition checked_urljoin (base url : str) : exc str :=
  if negb (truthy base) then Ok url
  else if negb (truthy url) then Ok base
  else
    let b := urlsplit base [] in
    if invalid_ipv6 (sr_netloc b) then Raise ValueError
    else if invalid_ipv6 (sr_netloc (urlsplit url (sr_scheme b)))
    then Raise ValueError
    else Ok (simple_urljoin base url).

Definition checked_netloc (url : str) : exc str :=
  let netloc := sr_netloc (urlsplit url []) in
  if invalid_ipv6 netloc then Raise ValueError else Ok netloc.

(** A page of the served table: its address, its text, its parse. *)
Record Page := {
  page_url : str;
  page_text : str;
  page_soup : Soup
}.

Definition empty_soup : Soup :=
  {| markup := []; anchors := []; main_h1 := None |}.

Definition served_env (pages : list Page) : Env :=
  {| lower := map ascii_lower;
     lower_ascii := fun s _ => eq_refl;
     urljoin := checked_urljoin;
     urlparse_netloc := checked_netloc;
     re_ichar := fun p c => ascii_lower p =? ascii_lower c;
     requests_get := fun url _ =>
       match List.find (fun p => bool_decide (page_url p = url)) pages with
       | Some p => Some (page_text p)
       | None => None
       end;
     BeautifulSoup := fun text =>
       match List.find (fun p => bool_decide (page_text p = text)) pages with
       | Some p => page_soup p
       | None => empty_soup
       end |}.

(** ** Pages to run the model on *)

Definition header (text : str) (siblings : list (list Anchor)) : Header :=
  {| h_text := text; h_siblings := siblings |}.

Definition anchor (href text : str) : Anchor :=
  {| a_href := Some href; a_text := text; a_string := Some text |}.

(** A campus page on which the heading of the first college comes
    again after another college. *)
Definition sinchon_url : str := u "https://www.yonsei.ac.kr/sc/186/subview.do".

Definition sinchon_text : str :=
  u "<main><div><h1>공과대학</h1></div><div><h1>컴퓨터과학과 교수진 소개</h1></div><div><a href='https://cs.yonsei.ac.kr/'>홈페이지 바로가기</a></div><div><h1>문과대학</h1></div><div><h1>공과대학</h1></div></main>".

Definition sinchon_soup : Soup :=
  {| markup := sinchon_text;
     anchors := [anchor (u "https://cs.yonsei.ac.kr/") (u "홈페이지 바로가기")];
     main_h1 := Some
       [ header (u "공과대학")
           [[]; [anchor (u "https://cs.yonsei.ac.kr/") (u "홈페이지 바로가기")]; []; []];
         header (u "컴퓨터과학과 교수진 소개")
           [[anchor (u "https://cs.yonsei.ac.kr/") (u "홈페이지 바로가기")]; []; []];
         header (u "문과대학") [[]];
         header (u "공과대학") [] ] |}.

(** The campus the crawl of that page gives. *)
Definition sinchon_campus : Campus.t Board.t :=
  Campus.Build_t (u "신촌캠퍼스")
    [ College.Build_t (u "공과대학")
        [ Department.Build_t (u "yonsei_cs") (u "컴퓨터과학과")
            (u "https://cs.yonsei.ac.kr/") [] ];
      College.Build_t (u "문과대학") [];
      College.Build_t (u "공과대학") [] ].

(** A department homepage with a link to its sitemap, and the sitemap. *)
Definition cs_url : str := u "https://cs.yonsei.ac.kr/".

Definition cs_text : str :=
  u "<a href='/sitemap.do'>사이트맵</a><a href='/notice/list.do'>공지사항</a>".

Definition cs_soup : Soup :=
  {| markup := cs_text;
     anchors := [ anchor (u "/sitemap.do") (u "사이트맵");
                  anchor (u "/notice/list.do") (u "공지사항") ];
     main_h1 := None |}.

Definition cs_sitemap_url : str := u "https://cs.yonsei.ac.kr/sitemap.do".

Definition cs_sitemap_text : str :=
  u "<a href='/board/academic.do'>학사공지</a><a href='/board/ugrad.do'>학부공지</a><a href='/board/academic.do'>학사공지</a><a href='https://www.yonsei.ac.kr/sc/scholarship.do'>장학</a><a href='#top'>공지사항</a>".

Definition cs_sitemap_soup : Soup :=
  {| markup := cs_sitemap_text;
     anchors := [ anchor (u "/board/academic.do") (u "학사공지");
                  anchor (u "/board/ugrad.do") (u "학부공지");
                  anchor (u "/board/academic.do") (u "학사공지");
                  anchor (u "https://www.yonsei.ac.kr/sc/scholarship.do") (u "장학");
                  anchor (u "#top") (u "공지사항") ];
     main_h1 := None |}.

(** The two boards of the sitemap. *)
Definition cs_academic : Board.t :=
  make_board (u "academic") (u "학사공지")
    (u "https://cs.yonsei.ac.kr/board/academic.do") yonsei_cms_selectors.

Definition cs_academic_2 : Board.t :=
  make_board (u "academic_2") (u "학부공지")
    (u "https://cs.yonsei.ac.kr/board/ugrad.do") yonsei_cms_selectors.

Definition cs_info : DeptInfo.t :=
  {| DeptInfo.campus := u "신촌캠퍼스"; DeptInfo.name := u "컴퓨터과학과" |}.

Definition yonsei_pages : list Page :=
  [ {| page_url := sinchon_url; page_text := sinchon_text;
       page_soup := sinchon_soup |};
    {| page_url := cs_url; page_text := cs_text; page_soup := cs_soup |};
    {| page_url := cs_sitemap_url; page_text := cs_sitemap_text;
       page_soup := cs_sitemap_soup |} ].

Definition yonsei_env : Env := served_env yonsei_pages.

(** ** Notions of the specification *)

(** The category of a link text: the entry of the first keyword of the
    table that the text contains. *)
Definition first_keyword (items : list (str * KeywordMeta)) (text : str)
    : option KeywordMeta :=
  match List.find (fun kv => contains (fst kv) text) items with
  | Some kv => Some (snd kv)
  | None => None
  end.

(** The category id a board was assigned: that of its link text, which is
    its name. *)
Definition board_category (b : Board.t) : option str :=
  match first_keyword KEYWORD_MAP (Board.name b) with
  | Some meta => Some (meta_id meta)
  | None => None
  end.

(** How many boards of [bs] were assigned the category [X]. *)
Definition count_category (X : str) (bs : list Board.t) : N :=
  N.of_nat (length (filter (fun b => board_category b = Some X) bs)).

(** The path of a URL, [urllib.parse.urlsplit(url).path]. *)
Definition url_path (url : str) : str := sr_path (urlsplit url []).

(** The first rule of the detector in the words of the specification: the
    path of the URL contains [.do], or the serialised markup contains the
    marker class. *)
Definition spec_first_rule (soup : Soup) (url : str) : bool :=
  contains (u ".do") (url_path url) || contains (u "c-board-title") (markup soup).

(** The first rule as the code tests it: the URL contains [.do], or the
    serialised markup in lower case contains the marker class. *)
Definition first_rule `{E : Env} (soup : Soup) (url : str) : bool :=
  contains (u ".do") url || contains (u "c-board-title") (lower (markup soup)).

Definition second_rule `{E : Env} (soup : Soup) : bool :=
  contains (u "xe-list-board") (lower (markup soup))
  || contains (u "xe_board") (lower (markup soup)).

(** The state of the loop after the links [links], for the domain
    [base_domain] of the base URL. *)
Definition extract_state `{E : Env} (soup : Soup) (base_url base_domain : str)
    (dflt : option Selectors) (links : list Anchor) : exc ExtractState :=
  extract_links soup base_url base_domain dflt links extract_init.

(** The board [b] was made from the link [link]: it has its text as name
    and its [href], resolved against the base URL, as URL. *)
Definition made_from `{E : Env} (base_url : str) (b : Board.t)
    (link : Anchor) : Prop :=
  Board.name b = a_text link ∧
  ∃ href, a_href link = Some href ∧ urljoin base_url href = Ok (Board.url b).

(** The two URLs have the same network location when it is put in lower
    case. *)
Definition same_netloc `{E : Env} (url base_url : str) : Prop :=
  ∃ netloc base_netloc,
    urlparse_netloc url = Ok netloc ∧
    urlparse_netloc base_url = Ok base_netloc ∧
    lower netloc = lower base_netloc.

(** The counters count the boards of each category, and each board has the
    id of its rank in its category. *)
Definition ids_invariant (st : ExtractState) : Prop :=
  (∀ X, default 0 (id_counts st !! X) = count_category X (boards st)) ∧
  (∀ i b, boards st !! i = Some b →
     ∃ X, board_category b = Some X ∧
       let n := count_category X (take (S i) (boards st)) in
       1 ≤ n ∧ (n = 1 → Board.id b = X) ∧
       (1 < n → Board.id b = X ++ u "_" ++ str_of_int n)).

(** No two boards share a URL, and the URL of every board is marked. *)
Definition urls_invariant (st : ExtractState) : Prop :=
  NoDup (Board.url <$> boards st) ∧
  (∀ b, b ∈ boards st → Board.url b ∈ seen_urls st).

(** The board [b] was made from a link of the document that is on the
    domain of the base URL and whose [href] is neither a script link nor
    has a fragment. *)
Definition from_same_origin_link `{E : Env} (soup : Soup) (base_url : str)
    (b : Board.t) : Prop :=
  ∃ link href,
    link ∈ anchors soup ∧ a_href link = Some href ∧
    Board.name b = a_text link ∧
    urljoin base_url href = Ok (Board.url b) ∧
    same_netloc (Board.url b) base_url ∧
    contains (u "javascript") href = false ∧
    contains (u "#") href = false.

(** The board carries one of the two dictionaries of the detector. *)
Definition known_selectors (b : Board.t) : Prop :=
  board_selectors b = yonsei_cms_selectors
  ∨ board_selectors b = xe_board_selectors.

(** The URL has the shape of the pattern of [_generate_department_id]:
    [http] or [https], [://], a non-empty subdomain [sub] without a dot,
    [.yonsei.ac.kr], and anything after it. *)
Definition matches_subdomain_pattern (url sub : str) : Prop :=
  ∃ scheme rest,
    (scheme = u "http" ∨ scheme = u "https") ∧ sub ≠ [] ∧ (46 ∉ sub) ∧
    url = scheme ++ u "://" ++ sub ++ u ".yonsei.ac.kr" ++ rest.

(** The pattern in the words of the specification:
    [scheme://{subdomain}.yonsei.ac.kr/...], with any scheme. *)
Definition spec_subdomain_pattern (url sub : str) : Prop :=
  ∃ scheme rest,
    scheme ≠ [] ∧ sub ≠ [] ∧
    url = scheme ++ u "://" ++ sub ++ u ".yonsei.ac.kr/" ++ rest.

(** No two neighbours of the list are equal. *)
Definition adjacent_distinct (names : list str) : Prop :=
  ∀ i a b, names !! i = Some a → names !! S i = Some b → a ≠ b.

(** [current_college] refers to the last college of the campus, and
    neighbouring colleges have different names. *)
Definition crawl_invariant (st : CrawlState) : Prop :=
  match current_college st with
  | Some i => S i = length (colleges st)
  | None => colleges st = []
  end ∧
  adjacent_distinct (College.name <$> colleges st).

(** ** Notions of the further properties *)

(** The ids of the categories of the table. *)
Definition category_ids : list str :=
  (fun kv => meta_id (snd kv)) <$> KEYWORD_MAP.

(** The words [_is_valid_board_link] looks for in an [href]. *)
Definition board_link_blacklist : list str :=
  [u "articleNo"; u "article_no"; u "mode=view"; u "seq"; u "view.do";
   u "board_seq"].

(** [CAMPUSES] of [config.py]. *)
Definition CAMPUSES : list (str * str) :=
  [ (u "https://www.yonsei.ac.kr/sc/186/subview.do", u "신촌캠퍼스");
    (u "https://mirae.yonsei.ac.kr/wj/1413/subview.do", u "미래캠퍼스") ].

Section AllCampuses.
Context `{E : Env}.

(** The loop of [crawl_all_campuses] over the configured campuses: a campus
    that could not be crawled is passed. *)
Fixpoint crawl_campuses_loop (items : list (str * str))
    (campuses : list (Campus.t Board.t)) : Eff (list (Campus.t Board.t)) :=
  match items with
  | [] => mret campuses
  | (url, name) :: items' =>
    campus ← crawl_campus url name;
    match campus with
    | Some campus => crawl_campuses_loop items' (campuses ++ [campus])
    | None => crawl_campuses_loop items' campuses
    end
  end.

Definition crawl_all_campuses : Eff (list (Campus.t Board.t)) :=
  crawl_campuses_loop CAMPUSES [].

(** The state of the loop of [crawl_campus] after the headings
    [headers]. *)
Definition crawl_state (headers : list Header) : CrawlState :=
  fold_left crawl_header headers {| colleges := []; current_college := None |}.

(** The department [d] is what [crawl_campus] makes of the heading
    [header]. *)
Definition department_from_header (header : Header)
    (d : Department.t Board.t) : Prop :=
  Department.name d = clean_header_text header ∧
  Department.name d ≠ [] ∧
  college_pattern_search (Department.name d) = false ∧
  contains (u "대학") (Department.name d) = false ∧
  Department.url d = _extract_department_url header ∧
  Department.id d
    = _generate_department_id (Department.name d) (Department.url d) ∧
  Department.boards d = [].

(** The college [c] has the name of a college heading of [headers], and
    departments of different names made of headings of [headers]. *)
Definition college_from_headers (headers : list Header)
    (c : College.t Board.t) : Prop :=
  (∃ header, header ∈ headers ∧ College.name c = clean_header_text header) ∧
  college_pattern_search (College.name c) = true ∧
  NoDup (Department.name <$> College.departments c) ∧
  Forall (λ d, ∃ header, header ∈ headers ∧ department_from_header header d)
    (College.departments c).

End AllCampuses.

(** A heading that opens or repeats a college. *)
Definition is_college_header (header : Header) : bool :=
  college_pattern_search (clean_header_text header).

(** The number of departments of a list of colleges. *)
Definition total_departments (cs : list (College.t Board.t)) : nat :=
  sum_list_with (λ c, length (College.departments c)) cs.

(** ** [main.py] *)

(** The output files of [config.py], as paths under [ROOT_DIR]. *)
Definition DEPARTMENTS_FILE : str := u "data/yonsei_departments.json".
Definition DEPARTMENTS_BOARDS_FILE : str :=
  u "data/yonsei_departments_boards.json".
Definition MANUAL_REVIEW_FILE : str := u "data/manual_review_needed.json".

(** [d[key] = v] on the items of a dictionary: the value of a key that is
    there is replaced where it is, a new key comes last. *)
Fixpoint dict_set_items (key : str) (v : json) (items : list (str * json))
    : list (str * json) :=
  match items with
  | [] => [(key, v)]
  | (k, x) :: items' =>
    if bool_decide (k = key) then (k, v) :: items'
    else (k, x) :: dict_set_items key v items'
  end.

Definition dict_set (key : str) (v : json) (j : json) : option json :=
  match j with
  | JDict items => Some (JDict (dict_set_items key v items))
  | _ => None
  end.

(** What [main] returns, or the exception that ends it, and the files it
    has saved until then, in the order of the calls of [save_json]. *)
Record MainResult := {
  exit_code : exc Z;
  saved : list (str * json)
}.

(** A lookup that raises when it finds nothing. *)
Definition key_error {A} (o : option A) : exc A :=
  match o with
  | Some a => Ok a
  | None => Raise KeyError
  end.

(** The value or the exception of a computation, as a value. *)
Definition outcome {A} (m : EffExc A) : Eff (exc A) := m.

Section Main.
Context `{E : Env}.

(** The loops of [main] over the dictionaries of [departments_data]. A
    dictionary is changed where it is, so each loop gives back the list it
    went over, with the departments changed, and [manual_review_items].
    An exception of [discover_boards] ends the loops. *)
Fixpoint main_departments (campus_name : str) (departments : list json)
    (manual_review_items : list json) : EffExc (list json * list json) :=
  match departments with
  | [] => mret ([], manual_review_items)
  | dept :: departments' =>
    name ← raising (key_error (get_str (u "name") dept));
    url ← raising (key_error (get_str (u "url") dept));
    let dept_info :=
      {| DeptInfo.campus := campus_name; DeptInfo.name := name |} in
    result ← discover_boards dept_info url;
    dept' ← raising (key_error
               (dict_set (u "boards")
                  (JList (map Board.to_dict
                            (BoardDiscoveryResult.boards result)))
                  dept));
    let manual_review_items :=
      match BoardDiscoveryResult.manual_review result with
      | Some item => manual_review_items ++ [ManualReviewItem.to_dict item]
      | None => manual_review_items
      end in
    rest ← main_departments campus_name departments' manual_review_items;
    mret (dept' :: fst rest, snd rest)
  end.

Fixpoint main_colleges (campus_name : str) (colleges : list json)
    (manual_review_items : list json) : EffExc (list json * list json) :=
  match colleges with
  | [] => mret ([], manual_review_items)
  | college :: colleges' =>
    departments ← raising (key_error (get_list (u "departments") college));
    changed ← main_departments campus_name departments manual_review_items;
    college' ← raising (key_error
                  (dict_set (u "departments") (JList (fst changed)) college));
    rest ← main_colleges campus_name colleges' (snd changed);
    mret (college' :: fst rest, snd rest)
  end.

Fixpoint main_campuses (departments_data : list json)
    (manual_review_items : list json) : EffExc (list json * list json) :=
  match departments_data with
  | [] => mret ([], manual_review_items)
  | campus_data :: departments_data' =>
    campus_name ← raising (key_error (get_str (u "campus") campus_data));
    colleges ← raising (key_error (get_list (u "colleges") campus_data));
    changed ← main_colleges campus_name colleges manual_review_items;
    campus_data' ← raising (key_error
                      (dict_set (u "colleges") (JList (fst changed))
                         campus_data));
    rest ← main_campuses departments_data' (snd changed);
    mret (campus_data' :: fst rest, snd rest)
  end.

(** [main]: the board lists of the campuses just crawled are empty, so
    [c.to_dict()] is the output shape of [c]. The department file is saved
    before the discovery, the two other files after it: an exception of the
    discovery leaves [main] with the first file saved alone. *)
Definition main : Eff MainResult :=
  campuses ← crawl_all_campuses;
  match campuses with
  | [] => mret {| exit_code := Ok 1%Z; saved := [] |}
  | _ :: _ =>
    let departments_data := serialize_campus <$> campuses in
    let saved_departments := (DEPARTMENTS_FILE, JList departments_data) in
    changed ← outcome (main_campuses departments_data []);
    mret (match changed with
          | Ok (departments_data', manual_review_items) =>
            {| exit_code := Ok 0%Z;
               saved := [ saved_departments;
                          (DEPARTMENTS_BOARDS_FILE, JList departments_data');
                          (MANUAL_REVIEW_FILE, JList manual_review_items) ] |}
          | Raise e =>
            {| exit_code := Raise e; saved := [saved_departments] |}
          end)
  end.

(** *** [main] in terms of the entities *)

(** The output shape of a department and of a college. *)
Definition serialize_department (d : Department.t Board.t) : json :=
  Department.to_dict (Department.map_boards Board.to_dict d).

Definition serialize_college (c : College.t Board.t) : json :=
  College.to_dict (College.map_boards Board.to_dict c).

(** The discovery that [main] runs for a department. *)
Definition department_discovery (campus_name : str)
    (d : Department.t Board.t) : EffExc BoardDiscoveryResult.t :=
  discover_boards
    {| DeptInfo.campus := campus_name; DeptInfo.name := Department.name d |}
    (Department.url d).

(** The boards of the discovery of a department, when it returns. *)
Definition discovered_boards (campus_name : str)
    (d : Department.t Board.t) : list Board.t :=
  match value (department_discovery campus_name d) with
  | Ok result => BoardDiscoveryResult.boards result
  | Raise _ => []
  end.

(** The department with the boards that [discover_boards] finds for it. *)
Definition discovered_department (campus_name : str)
    (d : Department.t Board.t) : Department.t Board.t :=
  Department.Build_t (Department.id d) (Department.name d) (Department.url d)
    (discovered_boards campus_name d).

Definition discovered_college (campus_name : str)
    (c : College.t Board.t) : College.t Board.t :=
  College.Build_t (College.name c)
    (map (discovered_department campus_name) (College.departments c)).

Definition discovered_campus (c : Campus.t Board.t) : Campus.t Board.t :=
  Campus.Build_t (Campus.campus c)
    (map (discovered_college (Campus.campus c)) (Campus.colleges c)).

(** The departments of a list of colleges, each with the name of the
    campus, in the order of the colleges and departments. *)
Definition college_departments (campus_name : str)
    (cs : list (College.t Board.t)) : list (str * Department.t Board.t) :=
  concat (map (λ c, map (pair campus_name) (College.departments c)) cs).

(** The departments of a list of campuses with the names of their
    campuses, in the order of the campuses, colleges and departments. *)
Definition campus_departments (cs : list (Campus.t Board.t))
    : list (str * Department.t Board.t) :=
  concat (map (λ c, college_departments (Campus.campus c) (Campus.colleges c))
            cs).

(** The calls of the discovery of a department. *)
Definition discovery_calls (entry : str * Department.t Board.t) : list Call :=
  calls (department_discovery (fst entry) (snd entry)).

(** The review item of a department, as a dictionary, when its discovery
    returns one. *)
Definition review_item (entry : str * Department.t Board.t) : option json :=
  match value (department_discovery (fst entry) (snd entry)) with
  | Ok result =>
    ManualReviewItem.to_dict <$> BoardDiscoveryResult.manual_review result
  | Raise _ => None
  end.

(** The exception of the first department whose discovery raises. *)
Fixpoint first_raise (entries : list (str * Department.t Board.t))
    : option exn :=
  match entries with
  | [] => None
  | entry :: entries' =>
    match value (department_discovery (fst entry) (snd entry)) with
    | Raise e => Some e
    | Ok _ => first_raise entries'
    end
  end.

(** The departments up to the first one whose discovery raises, and that
    one. *)
Fixpoint discovered_entries (entries : list (str * Department.t Board.t))
    : list (str * Department.t Board.t) :=
  match entries with
  | [] => []
  | entry :: entries' =>
    match value (department_discovery (fst entry) (snd entry)) with
    | Raise _ => [entry]
    | Ok _ => entry :: discovered_entries entries'
    end
  end.

End Main.

(** ** A second campus page

    Its first heading comes before any college, a department heading comes
    twice, the department has no homepage link, and a heading with [대학]
    in it is no college. *)
Definition mirae_url : str := u "https://mirae.yonsei.ac.kr/wj/1413/subview.do".

Definition mirae_text : str :=
  u "<main><div><h1>학과 안내</h1></div><div><h1>보건과학대학</h1></div><div><h1>물리치료학과</h1></div><div><h1>물리치료학과</h1></div><div><h1>대학원 안내</h1></div></main>".

Definition mirae_headers : list Header :=
  [ header (u "학과 안내") [[]; []; []; []];
    header (u "보건과학대학") [[]; []; []];
    header (u "물리치료학과") [[]; []];
    header (u "물리치료학과") [[]];
    header (u "대학원 안내") [] ].

Definition mirae_soup : Soup :=
  {| markup := mirae_text; anchors := []; main_h1 := Some mirae_headers |}.

Definition physical_therapy : Department.t Board.t :=
  Department.Build_t (u "yonsei_물리치료학과") (u "물리치료학과")
    (u "NOT_FOUND") [].

Definition health_sciences : College.t Board.t :=
  College.Build_t (u "보건과학대학") [physical_therapy].

Definition mirae_campus : Campus.t Board.t :=
  Campus.Build_t (u "미래캠퍼스") [health_sciences].

Definition both_campuses_env : Env :=
  served_env (yonsei_pages ++
              [ {| page_url := mirae_url; page_text := mirae_text;
                   page_soup := mirae_soup |} ]).

(** A homepage on which the first sitemap link has no [href] and a later
    one has. *)
Definition two_sitemap_links_soup : Soup :=
  {| markup := u "<a href='/notice/list.do'>공지사항</a><a>Sitemap</a><a href='/sitemap.do'>사이트맵</a>";
     anchors := [ anchor (u "/notice/list.do") (u "공지사항");
                  {| a_href := None; a_text := u "Sitemap";
                     a_string := Some (u "Sitemap") |};
                  anchor (u "/sitemap.do") (u "사이트맵") ];
     main_h1 := None |}.

(** The department of the first campus page. *)
Definition computer_science : Department.t Board.t :=
  Department.Build_t (u "yonsei_cs") (u "컴퓨터과학과")
    (u "https://cs.yonsei.ac.kr/") [].

(** A department page with a link whose [href] has a bracket without its
    partner, and the network that serves it with the two campus pages. *)
Definition malformed_text : str :=
  u "<a href='//['>공지사항</a><a href='/notice/list.do'>공지사항</a>".

Definition malformed_soup : Soup :=
  {| markup := malformed_text;
     anchors := [ anchor (u "//[") (u "공지사항");
                  anchor (u "/notice/list.do") (u "공지사항") ];
     main_h1 := None |}.

Definition malformed_env : Env :=
  served_env
    [ {| page_url := sinchon_url; page_text := sinchon_text;
         page_soup := sinchon_soup |};
      {| page_url := mirae_url; page_text := mirae_text;
         page_soup := mirae_soup |};
      {| page_url := cs_url; page_text := malformed_text;
         page_soup := malformed_soup |} ].

(** The network on which that homepage is the page of the department and
    the later link leads to the sitemap [cs_sitemap_soup]. *)
Definition two_links_env : Env :=
  served_env
    [ {| page_url := cs_url; page_text := markup two_sitemap_links_soup;
         page_soup := two_sitemap_links_soup |};
      {| page_url := cs_sitemap_url; page_text := cs_sitemap_text;
         page_soup := cs_sitemap_soup |} ].

(** ** Properties of the selector detector *)

Section DetectorProperties.
Context `{E : Env}.

Lemma detect_cms_selectors_eq soup url :
  detect_cms_selectors soup url =
  if first_rule soup url then Some yonsei_cms_selectors
  else if second_rule soup then Some xe_board_selectors
  else None.
Proof. reflexivity. Qed.

Lemma selectors_differ : yonsei_cms_selectors ≠ xe_board_selectors.
Proof.
  intros H. apply (f_equal (fun s => head (row_selector s))) in H.
  vm_compute in H. discriminate H.
Qed.

Lemma first_rule_true soup url :
  first_rule soup url = true ↔
  contains (u ".do") url = true
  ∨ contains (u "c-board-title") (lower (markup soup)) = true.
Proof. apply orb_true_iff. Qed.

Lemma second_rule_true soup :
  second_rule soup = true ↔
  contains (u "xe-list-board") (lower (markup soup)) = true
  ∨ contains (u "xe_board") (lower (markup soup)) = true.
Proof. apply orb_true_iff. Qed.

(** C4 (amended). The detector is first match wins: it returns the bundle of
    the primary CMS exactly when the URL, anywhere in it, contains [.do] or
    the markup in lower case contains the marker class; otherwise the XE
    bundle exactly when the markup in lower case contains one of its two
    markers; otherwise [None]. It returns nothing else. *)
Theorem detect_cms_selectors_first_match soup url :
  let primary :=
    contains (u ".do") url = true
    ∨ contains (u "c-board-title") (lower (markup soup)) = true in
  let secondary :=
    contains (u "xe-list-board") (lower (markup soup)) = true
    ∨ contains (u "xe_board") (lower (markup soup)) = true in
  (detect_cms_selectors soup url = Some yonsei_cms_selectors ↔ primary) ∧
  (detect_cms_selectors soup url = Some xe_board_selectors
     ↔ ¬ primary ∧ secondary) ∧
  (detect_cms_selectors soup url = None ↔ ¬ primary ∧ ¬ secondary) ∧
  (detect_cms_selectors soup url = Some yonsei_cms_selectors
     ∨ detect_cms_selectors soup url = Some xe_board_selectors
     ∨ detect_cms_selectors soup url = None).
Proof.
  cbv zeta. rewrite <- first_rule_true, <- second_rule_true.
  rewrite detect_cms_selectors_eq.
  pose proof selectors_differ as Hne.
  destruct (first_rule soup url), (second_rule soup);
    repeat split; intros; try tauto; try discriminate;
    try (exfalso; apply Hne; congruence); intuition congruence.
Qed.

End DetectorProperties.

(** C4 (as stated, refuted). The page at [http://www.domain.kr/] with no
    markup: the path [/] does not contain [.do] and the markup has no
    marker, and the detector returns the bundle of the primary CMS, for the
    [.do] of the host. *)
Lemma detect_cms_selectors_not_path_only :
  url_path (u "http://www.domain.kr/") = u "/" ∧
  spec_first_rule empty_soup (u "http://www.domain.kr/") = false ∧
  @detect_cms_selectors (served_env []) empty_soup (u "http://www.domain.kr/")
    = Some yonsei_cms_selectors.
Proof. vm_compute. auto. Qed.

(** ** Properties of board extraction *)

(** A property kept by every turn of a loop holds when the loop ends. *)
Lemma fold_left_invariant {A B} (P : A → Prop) (f : A → B → A) (l : list B) a :
  P a → (∀ a x, x ∈ l → P a → P (f a x)) → P (fold_left f l a).
Proof.
  revert a. induction l as [|x l IH]; intros a Ha Hstep; simpl; [done|].
  apply IH.
  - apply Hstep; [left | done].
  - intros a' y Hy. apply Hstep. by right.
Qed.

Lemma first_keyword_truthy text meta :
  first_keyword KEYWORD_MAP text = Some meta → truthy text = true.
Proof. destruct text; [vm_compute; discriminate | done]. Qed.

Lemma count_category_snoc X bs b :
  count_category X (bs ++ [b]) =
  count_category X bs + (if decide (board_category b = Some X) then 1 else 0).
Proof.
  unfold count_category. rewrite filter_app, length_app, Nat2N.inj_add.
  f_equal. rewrite filter_cons, filter_nil. by case_decide.
Qed.

Section ExtractProperties.
Context `{E : Env}.

(** The keyword loop makes a board exactly when the text has a category and
    selectors are found. *)
Lemma extract_keywords_eq soup dflt text full_url items st :
  extract_keywords soup dflt text full_url items st =
  match first_keyword items text,
        py_or (detect_cms_selectors soup full_url) dflt with
  | Some meta, Some selectors => add_board st meta text full_url selectors
  | _, _ => st
  end.
Proof.
  induction items as [|[keyword meta] items IH]; simpl; [done|].
  unfold first_keyword in *. simpl.
  destruct (contains keyword text); simpl; [|done].
  destruct (py_or _ _); [done|].
  rewrite IH. by destruct (List.find _ items).
Qed.

(** What a turn of the link loop that does not raise does: nothing, or one
    board for a link that passed every test. *)
Lemma extract_link_cases soup base_url base_domain dflt st link st' :
  extract_link soup base_url base_domain dflt st link = Ok st' →
  st' = st ∨
  ∃ href full_url netloc meta selectors,
    a_href link = Some href ∧
    _is_valid_board_link (a_text link) href = true ∧
    urljoin base_url href = Ok full_url ∧
    (full_url ∉ seen_urls st) ∧
    contains (u "javascript") href = false ∧
    contains (u "#") href = false ∧
    urlparse_netloc full_url = Ok netloc ∧
    lower netloc = base_domain ∧
    first_keyword KEYWORD_MAP (a_text link) = Some meta ∧
    py_or (detect_cms_selectors soup full_url) dflt = Some selectors ∧
    st' = add_board st meta (a_text link) full_url selectors.
Proof.
  unfold extract_link.
  destruct (a_href link) as [href|]; [|intros [=<-]; by left].
  destruct (_is_valid_board_link (a_text link) href) eqn:Hvalid;
    cbn [negb]; [|intros [=<-]; by left].
  destruct (urljoin base_url href) as [full_url|e] eqn:Hjoin;
    unfold mbind, exc_bind; [|done].
  destruct (bool_decide (full_url ∈ seen_urls st)) eqn:Hseen;
    [intros [=<-]; by left|].
  destruct (contains (u "javascript") href) eqn:Hjs; [intros [=<-]; by left|].
  destruct (contains (u "#") href) eqn:Hfrag; [intros [=<-]; by left|].
  cbn [orb].
  destruct (urlparse_netloc full_url) as [netloc|e] eqn:Hnetloc; [|done].
  destruct (bool_decide (_ ≠ _)) eqn:Hdom; [intros [=<-]; by left|].
  rewrite extract_keywords_eq.
  destruct (first_keyword KEYWORD_MAP (a_text link)) as [meta|] eqn:Hkw;
    [|intros [=<-]; by left].
  destruct (py_or _ dflt) as [selectors|] eqn:Hsel; [|intros [=<-]; by left].
  intros [=<-]. right. exists href, full_url, netloc, meta, selectors.
  apply bool_decide_eq_false in Hseen, Hdom.
  repeat split; try done.
  by destruct (decide (lower netloc = base_domain)).
Qed.

(** A property kept by every turn that does not raise holds of the state
    of a loop that does not raise. *)
Lemma extract_links_invariant (P : ExtractState → Prop)
    soup base_url base_domain dflt links st st' :
  P st →
  (∀ st link st', link ∈ links → P st →
     extract_link soup base_url base_domain dflt st link = Ok st' → P st') →
  extract_links soup base_url base_domain dflt links st = Ok st' → P st'.
Proof.
  revert st. induction links as [|link links IH]; intros st Hst Hstep; simpl.
  { by intros [=<-]. }
  destruct (extract_link soup base_url base_domain dflt st link) as [st1|e]
    eqn:Hlink; unfold mbind, exc_bind; [|done].
  apply IH.
  - apply (Hstep st link); [left | done | done].
  - intros st2 link2 st2' Hin. apply Hstep. by right.
Qed.

Lemma extract_links_app soup base_url base_domain dflt links links' st :
  extract_links soup base_url base_domain dflt (links ++ links') st =
  st' ← extract_links soup base_url base_domain dflt links st;
  extract_links soup base_url base_domain dflt links' st'.
Proof.
  revert st. induction links as [|link links IH]; intros st; simpl; [done|].
  destruct (extract_link soup base_url base_domain dflt st link) as [st1|e];
    unfold mbind, exc_bind; [|done].
  apply IH.
Qed.

(** The extraction returns the boards of the state of its loop. *)
Lemma extract_boards_Ok soup base_url dflt bs :
  _extract_boards_from_soup soup base_url dflt = Ok bs ↔
  ∃ netloc st,
    urlparse_netloc base_url = Ok netloc ∧
    extract_state soup base_url (lower netloc) dflt (anchors soup) = Ok st ∧
    bs = boards st.
Proof.
  unfold _extract_boards_from_soup, extract_state.
  destruct (urlparse_netloc base_url) as [netloc|e]; unfold mbind, exc_bind.
  2: { split; [done | by intros (? & ? & [=] & _)]. }
  destruct (extract_links _ _ _ _ _ _) as [st|e] eqn:Hst.
  - split; [intros [=<-]; by exists netloc, st|].
    intros (? & ? & [=<-] & Hst' & ->). rewrite Hst in Hst'. by injection Hst' as <-.
  - split; [done|]. intros (? & ? & [=<-] & Hst' & _). congruence.
Qed.

Lemma add_board_ids_invariant st meta text full_url selectors :
  first_keyword KEYWORD_MAP text = Some meta →
  ids_invariant st →
  ids_invariant (add_board st meta text full_url selectors).
Proof.
  intros Hkw [Hcount Hids].
  assert (Hcat : ∀ id, board_category
            (make_board id (if truthy text then text else meta_name meta)
               full_url selectors) = Some (meta_id meta)).
  { intros id. unfold board_category. simpl.
    by rewrite (first_keyword_truthy _ _ Hkw), Hkw. }
  split.
  - intros X. unfold add_board; simpl.
    rewrite count_category_snoc, Hcat, <- Hcount.
    destruct (decide (meta_id meta = X)) as [->|Hne].
    + rewrite lookup_insert_eq. simpl. by rewrite decide_True.
    + rewrite lookup_insert_ne by done.
      rewrite decide_False by congruence. lia.
  - intros i b Hb. unfold add_board in *; simpl in *.
    destruct (decide (i < length (boards st))%nat) as [Hlt|Hge].
    + rewrite lookup_app_l in Hb by done.
      rewrite take_app_le by lia. by apply Hids.
    + rewrite lookup_app_r in Hb by lia.
      destruct (i - length (boards st))%nat eqn:Hi; [|done].
      simpl in Hb. injection Hb as <-.
      exists (meta_id meta). split; [apply Hcat|].
      rewrite take_ge by (rewrite length_app; simpl; lia).
      rewrite count_category_snoc, Hcat, decide_True by done.
      rewrite <- Hcount. simpl.
      set (n := default 0 (id_counts st !! meta_id meta) + 1).
      split; [lia|]. split; intros Hn.
      * destruct (1 <? n) eqn:Hlt; [apply N.ltb_lt in Hlt; lia | done].
      * apply N.ltb_lt in Hn. by rewrite Hn.
Qed.

Lemma extract_init_ids_invariant : ids_invariant extract_init.
Proof.
  split; simpl; [intros X; by rewrite lookup_empty | by intros i b [=]].
Qed.

Lemma extract_state_ids_invariant soup base_url base_domain dflt links st :
  extract_state soup base_url base_domain dflt links = Ok st →
  ids_invariant st.
Proof.
  unfold extract_state. apply extract_links_invariant.
  - apply extract_init_ids_invariant.
  - intros st0 link st1 _ Hst Hlink.
    destruct (extract_link_cases _ _ _ _ _ _ _ Hlink)
      as [-> | (href & full_url & netloc & meta & selectors & _ & _ & _ & _ & _
                & _ & _ & _ & Hkw & _ & ->)]; [done|].
    by apply add_board_ids_invariant.
Qed.

(** The boards come in the order of the links they were made from. *)
Lemma extract_links_encounter_order soup base_url base_domain dflt links st st' :
  extract_links soup base_url base_domain dflt links st = Ok st' →
  ∃ new made,
    boards st' = boards st ++ new ∧ made `sublist_of` links ∧
    Forall2 (made_from base_url) new made.
Proof.
  revert st. induction links as [|link links IH]; intros st; simpl.
  { intros [=<-]. exists [], []. by rewrite app_nil_r. }
  destruct (extract_link soup base_url base_domain dflt st link) as [st1|e]
    eqn:Hlink; unfold mbind, exc_bind; [|done].
  intros Hrest. destruct (IH st1 Hrest) as (new & made & Hnew & Hsub & Hmade).
  destruct (extract_link_cases _ _ _ _ _ _ _ Hlink)
    as [-> | (href & full_url & netloc & meta & selectors & Hhref & _ & Hjoin
              & _ & _ & _ & _ & _ & Hkw & _ & ->)].
  - exists new, made. split; [done|]. split; [by apply sublist_cons | done].
  - unfold add_board in Hnew; cbn [boards] in Hnew.
    rewrite <- app_assoc in Hnew.
    eexists _, (link :: made). split; [exact Hnew|].
    split; [by apply sublist_skip|].
    constructor; [|done]. split.
    + simpl. by rewrite (first_keyword_truthy _ _ Hkw).
    + by exists href.
Qed.

(** C6. In every call of the extraction the counters start empty; the
    boards that the call returns come in the order of the links they were
    made from, and the board at any position has a category [X], the id of
    the first keyword of the table that its text contains; with [n] the
    number of boards of category [X] up to and including it, its id is [X]
    when [n] is 1 and [X_n] when [n] is more. *)
Theorem extract_boards_nth_id soup base_url dflt :
  (∀ base_domain, ∃ st,
     extract_state soup base_url base_domain dflt [] = Ok st ∧
     id_counts st = ∅) ∧
  (∀ bs,
     _extract_boards_from_soup soup base_url dflt = Ok bs →
     ∃ made, made `sublist_of` anchors soup ∧
       Forall2 (made_from base_url) bs made) ∧
  (∀ bs i b,
     _extract_boards_from_soup soup base_url dflt = Ok bs →
     bs !! i = Some b →
     ∃ X, board_category b = Some X ∧
       let n := count_category X (take (S i) bs) in
       1 ≤ n ∧ (n = 1 → Board.id b = X) ∧
       (1 < n → Board.id b = X ++ u "_" ++ str_of_int n)).
Proof.
  split; [intros base_domain; by exists extract_init|]. split.
  - intros bs Hbs.
    apply extract_boards_Ok in Hbs as (netloc & st & _ & Hst & ->).
    destruct (extract_links_encounter_order _ _ _ _ _ _ _ Hst)
      as (new & made & Hnew & Hsub & Hmade).
    exists made. split; [done|]. by rewrite Hnew.
  - intros bs i b Hbs Hb.
    apply extract_boards_Ok in Hbs as (netloc & st & _ & Hst & ->).
    by apply (extract_state_ids_invariant _ _ _ _ _ _ Hst).
Qed.

Lemma make_board_url id name url selectors :
  Board.url (make_board id name url selectors) = url.
Proof. reflexivity. Qed.

Lemma add_board_urls_invariant st meta text full_url selectors :
  full_url ∉ seen_urls st →
  urls_invariant st →
  urls_invariant (add_board st meta text full_url selectors).
Proof.
  intros Hnew [Hnodup Hseen]. unfold add_board, urls_invariant.
  cbn [boards seen_urls]. split.
  - rewrite fmap_app, list_fmap_singleton, make_board_url.
    apply NoDup_app. split; [done|]. split; [|apply NoDup_singleton].
    intros x Hx Hx'. apply list_elem_of_singleton in Hx' as ->.
    apply list_elem_of_fmap in Hx as (b & Hb & Hin).
    apply Hnew. rewrite Hb. by apply Hseen.
  - intros b Hb. apply elem_of_app in Hb as [Hb | Hb].
    + apply elem_of_union_r. by apply Hseen.
    + apply list_elem_of_singleton in Hb as ->. rewrite make_board_url.
      apply elem_of_union_l. by apply elem_of_singleton.
Qed.

Lemma extract_state_urls_invariant soup base_url base_domain dflt links st :
  extract_state soup base_url base_domain dflt links = Ok st →
  urls_invariant st.
Proof.
  unfold extract_state. apply extract_links_invariant.
  - split; simpl; [apply NoDup_nil_2 | intros b Hb; by apply elem_of_nil in Hb].
  - intros st0 link st1 _ Hst Hlink.
    destruct (extract_link_cases _ _ _ _ _ _ _ Hlink)
      as [-> | (href & full_url & netloc & meta & selectors & _ & _ & _ & Hnew
                & _ & _ & _ & _ & _ & _ & ->)]; [done|].
    by apply add_board_urls_invariant.
Qed.

(** C7. The boards that one call of the extraction returns have pairwise
    different URLs: the URL of every board made so far is marked as seen, a
    link that resolves to a marked URL makes no board and leaves the state
    as it is, and the loop goes on with the links after it. *)
Theorem extract_boards_distinct_urls soup base_url dflt :
  (∀ bs, _extract_boards_from_soup soup base_url dflt = Ok bs →
     NoDup (Board.url <$> bs)) ∧
  (∀ base_domain links st b,
     extract_state soup base_url base_domain dflt links = Ok st →
     b ∈ boards st → Board.url b ∈ seen_urls st) ∧
  (∀ base_domain st link href full_url,
     a_href link = Some href → urljoin base_url href = Ok full_url →
     full_url ∈ seen_urls st →
     extract_link soup base_url base_domain dflt st link = Ok st) ∧
  (∀ base_domain links link links',
     extract_state soup base_url base_domain dflt (links ++ link :: links') =
     st ← extract_state soup base_url base_domain dflt links;
     st' ← extract_link soup base_url base_domain dflt st link;
     extract_links soup base_url base_domain dflt links' st').
Proof.
  split.
  { intros bs Hbs.
    apply extract_boards_Ok in Hbs as (netloc & st & _ & Hst & ->).
    apply (extract_state_urls_invariant _ _ _ _ _ _ Hst). }
  split.
  { intros base_domain links st0 b Hst0.
    apply (extract_state_urls_invariant _ _ _ _ _ _ Hst0). }
  split.
  - intros base_domain st0 link href full_url Hhref Hjoin Hseen.
    unfold extract_link. rewrite Hhref.
    destruct (_is_valid_board_link (a_text link) href); cbn [negb]; [|done].
    rewrite Hjoin. unfold mbind, exc_bind.
    by rewrite bool_decide_eq_true_2.
  - intros base_domain links link links'. unfold extract_state.
    by rewrite extract_links_app.
Qed.

(** What every board of the loop has from the link it was made from. *)
Lemma extract_state_boards_from_links soup base_url base_domain dflt links st :
  extract_state soup base_url base_domain dflt links = Ok st →
  Forall (λ b,
    ∃ link href keyword meta netloc,
      link ∈ links ∧ a_href link = Some href ∧
      Board.name b = a_text link ∧ urljoin base_url href = Ok (Board.url b) ∧
      _is_valid_board_link (a_text link) href = true ∧
      contains (u "javascript") href = false ∧
      contains (u "#") href = false ∧
      (keyword, meta) ∈ KEYWORD_MAP ∧ contains keyword (a_text link) = true ∧
      urlparse_netloc (Board.url b) = Ok netloc ∧
      lower netloc = base_domain ∧
      py_or (detect_cms_selectors soup (Board.url b)) dflt
        = Some (board_selectors b))
    (boards st).
Proof.
  unfold extract_state. intros Hloop. pattern st.
  eapply extract_links_invariant; [| |exact Hloop]; cbv beta.
  - apply Forall_nil_2.
  - intros st0 link st1 Hlink Hst Hturn.
    destruct (extract_link_cases _ _ _ _ _ _ _ Hturn)
      as [-> | (href & full_url & netloc & meta & selectors & Hhref & Hvalid
                & Hjoin & _ & Hjs & Hfrag & Hnetloc & Hdom & Hkw & Hsel & ->)];
      [done|].
    unfold add_board; cbn [boards]. apply Forall_app. split; [done|].
    apply Forall_singleton.
    assert (∃ keyword, (keyword, meta) ∈ KEYWORD_MAP
                       ∧ contains keyword (a_text link) = true)
      as (keyword & Hin & Hc).
    { unfold first_keyword in Hkw.
      destruct (List.find _ KEYWORD_MAP) as [[keyword meta']|] eqn:Hfind;
        [|done].
      injection Hkw as <-. apply find_some in Hfind as [Hin Hc].
      exists keyword. split; [by apply list_elem_of_In | done]. }
    exists link, href, keyword, meta, netloc.
    assert (Hsels : ∀ id name url, board_selectors
              (make_board id name url selectors) = selectors)
      by by destruct selectors.
    rewrite Hsels. simpl.
    by rewrite (first_keyword_truthy _ _ Hkw).
Qed.


Lemma detect_cms_selectors_known soup url :
  detect_cms_selectors soup url = Some yonsei_cms_selectors
  ∨ detect_cms_selectors soup url = Some xe_board_selectors
  ∨ detect_cms_selectors soup url = None.
Proof.
  rewrite detect_cms_selectors_eq.
  destruct (first_rule soup url); [by left|].
  destruct (second_rule soup); [by right; left | by right; right].
Qed.

Lemma py_or_detect_known soup full_url home_soup home_url selectors :
  py_or (detect_cms_selectors soup full_url)
        (detect_cms_selectors home_soup home_url) = Some selectors →
  selectors = yonsei_cms_selectors ∨ selectors = xe_board_selectors.
Proof.
  destruct (detect_cms_selectors_known soup full_url) as [-> | [-> | ->]];
    simpl; [intros [=<-]; by left | intros [=<-]; by right |].
  destruct (detect_cms_selectors_known home_soup home_url) as [-> | [-> | ->]];
    [intros [=<-]; by left | intros [=<-]; by right | done].
Qed.

Lemma extract_boards_known_selectors soup base_url home_soup home_url bs b :
  _extract_boards_from_soup soup base_url
    (detect_cms_selectors home_soup home_url) = Ok bs →
  b ∈ bs →
  known_selectors b.
Proof.
  intros Hbs Hb.
  apply extract_boards_Ok in Hbs as (base_netloc & st & _ & Hst & ->).
  pose proof (extract_state_boards_from_links _ _ _ _ _ _ Hst) as Hall.
  rewrite Forall_forall in Hall.
  destruct (Hall b Hb)
    as (_ & _ & _ & _ & _ & _ & _ & _ & _ & _ & _ & _ & _ & _ & _ & _ & Hsel).
  unfold known_selectors.
  apply py_or_detect_known in Hsel as [<- | <-]; [by left | by right].
Qed.

End ExtractProperties.

(** ** Properties of board discovery *)

Section DiscoveryProperties.
Context `{E : Env}.

Lemma discover_boards_invalid dept_info dept_url :
  dept_url = u "NOT_FOUND" ∨ startswith (u "http") dept_url = false →
  discover_boards dept_info dept_url =
  (Ok {| BoardDiscoveryResult.boards := [];
         BoardDiscoveryResult.manual_review := Some
           {| ManualReviewItem.campus := DeptInfo.campus dept_info;
              ManualReviewItem.name := DeptInfo.name dept_info;
              ManualReviewItem.url := dept_url;
              ManualReviewItem.reason := u "Homepage URL is invalid" |} |}, []).
Proof.
  intros H. unfold discover_boards.
  destruct H as [-> | ->]; [done|]. by rewrite orb_true_r.
Qed.

Lemma discover_boards_valid (dept_url : str) :
  dept_url ≠ u "NOT_FOUND" → startswith (u "http") dept_url = true →
  bool_decide (dept_url = u "NOT_FOUND")
    || negb (startswith (u "http") dept_url) = false.
Proof. intros Hne ->. by rewrite bool_decide_eq_false_2. Qed.

Lemma discover_boards_not_fetched dept_info dept_url :
  dept_url ≠ u "NOT_FOUND" → startswith (u "http") dept_url = true →
  requests_get dept_url 7 = None →
  discover_boards dept_info dept_url =
  (Ok {| BoardDiscoveryResult.boards := [];
         BoardDiscoveryResult.manual_review := Some
           {| ManualReviewItem.campus := DeptInfo.campus dept_info;
              ManualReviewItem.name := DeptInfo.name dept_info;
              ManualReviewItem.url := dept_url;
              ManualReviewItem.reason := u "Failed to fetch homepage" |} |},
   [CallGetSoup dept_url 7]).
Proof.
  intros Hne Hhttp Hget. unfold discover_boards.
  rewrite discover_boards_valid by done.
  unfold get_soup, fetch_page. by rewrite Hget.
Qed.

(** After a fetched homepage: the sitemap first, the homepage when the
    sitemap is not there or gives no board; an exception of the search of
    the sitemap or of an extraction ends the discovery. *)
Lemma discover_boards_fetched dept_info dept_url text :
  dept_url ≠ u "NOT_FOUND" → startswith (u "http") dept_url = true →
  requests_get dept_url 7 = Some text →
  let soup := BeautifulSoup text in
  let dflt := detect_cms_selectors soup dept_url in
  let found := _find_sitemap soup dept_url in
  let result boards :=
    {| BoardDiscoveryResult.boards := boards;
       BoardDiscoveryResult.manual_review := None |} in
  let homepage (log : list Call) : EffExc BoardDiscoveryResult.t :=
    (match _extract_boards_from_soup soup dept_url dflt with
     | Ok boards => Ok (result boards)
     | Raise e => Raise e
     end,
     CallGetSoup dept_url 7 :: calls found ++ log
       ++ [CallExtract soup dept_url]) in
  discover_boards dept_info dept_url =
  match value found with
  | Raise e => (Raise e, CallGetSoup dept_url 7 :: calls found)
  | Ok None => homepage []
  | Ok (Some sitemap_soup) =>
    match _extract_boards_from_soup sitemap_soup dept_url dflt with
    | Raise e =>
      (Raise e,
       CallGetSoup dept_url 7 :: calls found
         ++ [CallExtract sitemap_soup dept_url])
    | Ok [] => homepage [CallExtract sitemap_soup dept_url]
    | Ok (b :: bs) =>
      (Ok (result (b :: bs)),
       CallGetSoup dept_url 7 :: calls found
         ++ [CallExtract sitemap_soup dept_url])
    end
  end.
Proof.
  intros Hne Hhttp Hget. unfold discover_boards.
  rewrite discover_boards_valid by done.
  unfold get_soup, fetch_page. rewrite Hget. simpl.
  destruct (_find_sitemap (BeautifulSoup text) dept_url) as [[[sm|]|e] l]; simpl.
  - destruct (_extract_boards_from_soup sm dept_url _) as [[|b bs]|e]; simpl.
    + destruct (_extract_boards_from_soup (BeautifulSoup text) dept_url _);
        simpl; by rewrite ?app_nil_r, <- ?app_assoc.
    + by rewrite ?app_nil_r.
    + by rewrite ?app_nil_r.
  - destruct (_extract_boards_from_soup (BeautifulSoup text) dept_url _);
      simpl; by rewrite ?app_nil_r.
  - done.
Qed.

(** The search of the sitemap makes no call but the fetch of the sitemap,
    finds a document exactly when the first link with the sitemap text has
    a non-empty [href] that [urljoin] resolves and whose page is fetched,
    and raises exactly when [urljoin] raises on that [href]. *)
Lemma find_sitemap_spec soup base_url :
  Forall (λ c, ∃ url, c = CallGetSoup url 5)
    (calls (_find_sitemap soup base_url)) ∧
  (∀ sitemap_soup,
     value (_find_sitemap soup base_url) = Ok (Some sitemap_soup) ↔
     ∃ link href url text,
       find_sitemap_link soup = Some link ∧ a_href link = Some href ∧
       href ≠ [] ∧ urljoin base_url href = Ok url ∧
       requests_get url 5 = Some text ∧
       sitemap_soup = BeautifulSoup text) ∧
  (∀ e,
     value (_find_sitemap soup base_url) = Raise e ↔
     ∃ link href,
       find_sitemap_link soup = Some link ∧ a_href link = Some href ∧
       href ≠ [] ∧ urljoin base_url href = Raise e).
Proof.
  unfold _find_sitemap, get_soup, fetch_page.
  destruct (find_sitemap_link soup) as [link|]; simpl.
  2: { split; [constructor|]. split.
       - intros sm; split; [done|]. by intros (? & ? & ? & ? & [=] & _).
       - intros e; split; [done|]. by intros (? & ? & [=] & _). }
  destruct (a_href link) as [href|] eqn:Hhref; simpl.
  2: { split; [constructor|]. split.
       - intros sm; split; [done|].
         intros (? & ? & ? & ? & [=<-] & Hh & _). congruence.
       - intros e; split; [done|]. intros (? & ? & [=<-] & Hh & _). congruence. }
  destruct href as [|c href]; simpl.
  { split; [constructor|]. split.
    - intros sm; split; [done|].
      intros (? & ? & ? & ? & [=<-] & Hh & Hne & _). congruence.
    - intros e; split; [done|].
      intros (? & ? & [=<-] & Hh & Hne & _). congruence. }
  destruct (urljoin base_url (c :: href)) as [url|e0] eqn:Hjoin; simpl.
  - split; [repeat constructor; by eexists|]. split.
    + intros sm. destruct (requests_get url 5) as [text|] eqn:Hget; split.
      * intros [=<-]. by exists link, (c :: href), url, text.
      * intros (? & ? & ? & ? & [=<-] & Hh & _ & Hj & Hg & ->).
        rewrite Hhref in Hh. injection Hh as <-.
        rewrite Hjoin in Hj. injection Hj as <-. congruence.
      * done.
      * intros (? & ? & ? & ? & [=<-] & Hh & _ & Hj & Hg & _).
        rewrite Hhref in Hh. injection Hh as <-.
        rewrite Hjoin in Hj. injection Hj as <-. congruence.
    + intros e; split; [done|].
      intros (? & ? & [=<-] & Hh & _ & Hj).
      rewrite Hhref in Hh. injection Hh as <-. congruence.
  - split; [constructor|]. split.
    + intros sm; split; [done|].
      intros (? & ? & ? & ? & [=<-] & Hh & _ & Hj & _).
      rewrite Hhref in Hh. injection Hh as <-. congruence.
    + intros e; split.
      * intros [=<-]. by exists link, (c :: href).
      * intros (? & ? & [=<-] & Hh & _ & Hj).
        rewrite Hhref in Hh. injection Hh as <-. congruence.
Qed.



(** The boards of a discovery that returns are none, with or without a
    review item, or those that one extraction against the homepage URL with
    the default of the homepage returns. *)
Lemma discover_boards_boards_cases dept_info dept_url result :
  value (discover_boards dept_info dept_url) = Ok result →
  BoardDiscoveryResult.boards result = [] ∨
  (BoardDiscoveryResult.manual_review result = None ∧
   ∃ soup home_soup,
     _extract_boards_from_soup soup dept_url
       (detect_cms_selectors home_soup dept_url)
     = Ok (BoardDiscoveryResult.boards result)).
Proof.
  destruct (decide (dept_url = u "NOT_FOUND")) as [Heq | Hne].
  { rewrite discover_boards_invalid by by left. intros [=<-]. by left. }
  destruct (startswith (u "http") dept_url) eqn:Hhttp; cycle 1.
  { rewrite discover_boards_invalid by by right. intros [=<-]. by left. }
  destruct (requests_get dept_url 7) as [text|] eqn:Hget.
  - rewrite (discover_boards_fetched dept_info dept_url text) by done.
    destruct (value (_find_sitemap _ _)) as [[sm|]|e]; simpl.
    + destruct (_extract_boards_from_soup sm dept_url _) as [[|b bs]|e]
        eqn:Hsm; simpl.
      * destruct (_extract_boards_from_soup (BeautifulSoup text) _ _)
          as [bs|e] eqn:Hhome; simpl; [|done].
        intros [=<-]. right. split; [done|]. by eexists _, _.
      * intros [=<-]. right. split; [done|]. by eexists _, _.
      * done.
    + destruct (_extract_boards_from_soup (BeautifulSoup text) _ _)
        as [bs|e] eqn:Hhome; simpl; [|done].
      intros [=<-]. right. split; [done|]. by eexists _, _.
    + done.
  - rewrite discover_boards_not_fetched by done. intros [=<-]. by left.
Qed.

(** C10. Every board that [discover_boards] returns, and every board that
    an extraction whose default comes from the detector returns, carries one
    of the two dictionaries of the detector, and its [attr_name] is
    [href]. *)
Theorem discovered_boards_known_selectors dept_info dept_url :
  (∀ result b,
     value (discover_boards dept_info dept_url) = Ok result →
     b ∈ BoardDiscoveryResult.boards result →
     known_selectors b ∧ Board.attr_name b = u "href") ∧
  (∀ soup home_soup home_url bs b,
     _extract_boards_from_soup soup dept_url
       (detect_cms_selectors home_soup home_url) = Ok bs →
     b ∈ bs →
     known_selectors b ∧ Board.attr_name b = u "href").
Proof.
  assert (Hattr : ∀ b, known_selectors b →
            known_selectors b ∧ Board.attr_name b = u "href").
  { intros b Hb. split; [done|].
    by destruct Hb as [Hb | Hb]; apply (f_equal attr_name) in Hb. }
  assert (Hextract : ∀ soup home_soup home_url bs b,
     _extract_boards_from_soup soup dept_url
       (detect_cms_selectors home_soup home_url) = Ok bs →
     b ∈ bs →
     known_selectors b ∧ Board.attr_name b = u "href").
  { intros soup home_soup home_url bs b Hbs Hb.
    by apply Hattr, (extract_boards_known_selectors soup dept_url
                       home_soup home_url bs). }
  split; [|done]. intros result b Hresult Hb.
  destruct (discover_boards_boards_cases _ _ _ Hresult)
    as [Hnil | (_ & soup & home_soup & Hbs)].
  - rewrite Hnil in Hb. by apply elem_of_nil in Hb.
  - by apply (Hextract soup home_soup dept_url _ b Hbs).
Qed.

End DiscoveryProperties.

(** ** Properties of the department hierarchy *)

Lemma strip_prefix_Some p s r : strip_prefix p s = Some r ↔ s = p ++ r.
Proof.
  revert s. induction p as [|c p IH]; intros s; simpl.
  { split; congruence. }
  destruct s as [|d s]; [split; intros [=]|].
  destruct (N.eqb_spec c d) as [->|Hne].
  - rewrite IH. split; [by intros -> | by intros [=]].
  - split; [done | intros [=]; congruence].
Qed.

Lemma startswith_true p s : startswith p s = true ↔ ∃ r, s = p ++ r.
Proof.
  revert s. induction p as [|c p IH]; intros s; simpl.
  { split; [by exists s | done]. }
  destruct s as [|d s]; [split; [done | by intros [? [=]]]|].
  destruct (N.eqb_spec c d) as [->|Hne]; simpl.
  - rewrite IH. split; [by intros [r ->]; exists r | intros [r [=]]; by exists r].
  - split; [done | intros [r [=]]; congruence].
Qed.

Lemma span_no_dot_app sub rest :
  46 ∉ sub → span_no_dot (sub ++ 46 :: rest) = (sub, 46 :: rest).
Proof.
  induction sub as [|c sub IH]; intros Hdot; simpl; [done|].
  apply not_elem_of_cons in Hdot as [Hc Hsub].
  destruct (N.eqb_spec c 46) as [->|_]; [done|]. by rewrite IH.
Qed.

Lemma span_no_dot_inv s a b :
  span_no_dot s = (a, b) →
  s = a ++ b ∧ (46 ∉ a) ∧ (b = [] ∨ ∃ r, b = 46 :: r).
Proof.
  revert a b. induction s as [|c s IH]; intros a b; simpl.
  { intros [=<- <-]. split; [done|]. split; [apply not_elem_of_nil | by left]. }
  destruct (N.eqb_spec c 46) as [->|Hne].
  { intros [=<- <-]. split; [done|]. split; [apply not_elem_of_nil | eauto]. }
  destruct (span_no_dot s) as [a' b'] eqn:Hspan. intros [=<- <-].
  destruct (IH a' b' eq_refl) as (-> & Hdot & Hb).
  split; [done|]. split; [|done]. apply not_elem_of_cons. by split.
Qed.

Lemma subdomain_after_scheme_Some s sub :
  subdomain_after_scheme s = Some sub ↔
  ∃ rest, sub ≠ [] ∧ (46 ∉ sub) ∧
    s = u "://" ++ sub ++ u ".yonsei.ac.kr" ++ rest.
Proof.
  unfold subdomain_after_scheme. split.
  - destruct (strip_prefix _ s) as [r|] eqn:Hr; [|done].
    apply strip_prefix_Some in Hr as ->.
    destruct (span_no_dot r) as [a b] eqn:Hspan.
    apply span_no_dot_inv in Hspan as (-> & Hdot & _).
    destruct a as [|c a]; [done|]. cbn [truthy andb].
    destruct (startswith _ b) eqn:Hb; [|done].
    apply startswith_true in Hb as [rest ->]. intros [=<-].
    by exists rest.
  - intros (rest & Hsub & Hdot & ->).
    assert (Hstrip : strip_prefix (u "://")
              (u "://" ++ sub ++ u ".yonsei.ac.kr" ++ rest)
            = Some (sub ++ u ".yonsei.ac.kr" ++ rest))
      by by apply strip_prefix_Some.
    rewrite Hstrip.
    change (u ".yonsei.ac.kr" ++ rest)
      with (46 :: (u "yonsei.ac.kr" ++ rest)).
    rewrite span_no_dot_app by done.
    destruct sub; [done|]. cbn [truthy andb].
    change (46 :: (u "yonsei.ac.kr" ++ rest))
      with (u ".yonsei.ac.kr" ++ rest).
    assert (Hstart : startswith (u ".yonsei.ac.kr")
              (u ".yonsei.ac.kr" ++ rest) = true)
      by (apply startswith_true; by exists rest).
    by rewrite Hstart.
Qed.

Lemma subdomain_after_scheme_s s : subdomain_after_scheme (115 :: s) = None.
Proof. reflexivity. Qed.

(** The match of the pattern, as the source runs it, is the shape
    [matches_subdomain_pattern]. *)
Lemma subdomain_match_Some url sub :
  subdomain_match url = Some sub ↔ matches_subdomain_pattern url sub.
Proof.
  unfold subdomain_match, matches_subdomain_pattern. split.
  - destruct (strip_prefix _ url) as [r|] eqn:Hr; [|done].
    apply strip_prefix_Some in Hr as ->.
    intros H.
    assert (Hcases :
      subdomain_after_scheme r = Some sub ∨
      ∃ r', r = 115 :: r' ∧ subdomain_after_scheme r' = Some sub).
    { destruct r as [|c r']; [by left|].
      destruct (decide (c = 115)) as [->|Hc].
      - right. exists r'. split; [done|].
        rewrite subdomain_after_scheme_s in H.
        by destruct (subdomain_after_scheme r').
      - left. destruct c as [|p]; [done|].
        do 7 (destruct p as [p|p|]; try done). }
    destruct Hcases as [Hs | (r' & -> & Hs)];
      apply subdomain_after_scheme_Some in Hs as (rest & Hsub & Hdot & ->).
    + exists (u "http"), rest. by split; [left|].
    + exists (u "https"), rest. by split; [right|].
  - intros (scheme & rest & [-> | ->] & Hsub & Hdot & ->).
    + assert (Hs : subdomain_after_scheme
                (u "://" ++ sub ++ u ".yonsei.ac.kr" ++ rest) = Some sub)
        by (apply subdomain_after_scheme_Some; by exists rest).
      simpl. simpl in Hs. by rewrite Hs.
    + assert (Hs : subdomain_after_scheme
                (u "://" ++ sub ++ u ".yonsei.ac.kr" ++ rest) = Some sub)
        by (apply subdomain_after_scheme_Some; by exists rest).
      simpl. simpl in Hs. by rewrite Hs.
Qed.

Section HierarchyProperties.
Context `{E : Env}.

(** C5 (amended). The id of a department is a function of its name and
    URL: for a URL that begins with [http://] or [https://], a subdomain
    that is not empty and has no dot, and [.yonsei.ac.kr], whatever comes
    after it, the id is [yonsei_] and the subdomain in lower case, so
    [yonsei_econ] for [https://econ.yonsei.ac.kr/]; for every other URL it
    is [yonsei_] and the name in lower case with its spaces made
    underscores. *)
Theorem generate_department_id_spec name url :
  (∀ sub, matches_subdomain_pattern url sub →
     _generate_department_id name url = u "yonsei_" ++ lower sub) ∧
  ((∀ sub, ¬ matches_subdomain_pattern url sub) →
     _generate_department_id name url
     = u "yonsei_" ++ replace_char 32 95 (lower name)) ∧
  _generate_department_id name (u "https://econ.yonsei.ac.kr/")
    = u "yonsei_econ" ∧
  (∀ name' url', name' = name → url' = url →
     _generate_department_id name' url' = _generate_department_id name url).
Proof.
  assert (Hmatch : ∀ url sub, matches_subdomain_pattern url sub →
            _generate_department_id name url = u "yonsei_" ++ lower sub).
  { intros url0 sub Hm. unfold _generate_department_id.
    pose proof Hm as (scheme & rest & Hscheme & _ & _ & ->).
    apply subdomain_match_Some in Hm. rewrite Hm.
    destruct (_ && _) eqn:Hguard; [done|].
    apply andb_false_iff in Hguard as [Hguard | Hguard].
    - by destruct Hscheme as [-> | ->].
    - apply bool_decide_eq_false in Hguard. destruct Hguard.
      by destruct Hscheme as [-> | ->]. }
  split; [by apply Hmatch|]. split; [|split].
  - intros Hno. unfold _generate_department_id.
    destruct (subdomain_match url) as [sub|] eqn:Hsub.
    + apply subdomain_match_Some in Hsub. by destruct (Hno sub).
    + by destruct (_ && _).
  - rewrite (Hmatch _ (u "econ")).
    + by rewrite lower_ascii.
    + exists (u "https"), (u "/"). split; [by right|]. split; [done|].
      split; [|done]. by apply (bool_decide_unpack _).
  - by intros ? ? -> ->.
Qed.

(** What a turn of the header loop does: nothing, a new college whose name
    is not that of the current one, or a department in the current
    college. *)
Lemma crawl_header_cases st header :
  crawl_header st header = st ∨
  (college_pattern_search (clean_header_text header) = true ∧
   (∀ c, current st = Some c → College.name c ≠ clean_header_text header) ∧
   crawl_header st header = open_college st (clean_header_text header)) ∨
  (∃ i d, current_college st = Some i ∧
     crawl_header st header = append_department st i d).
Proof.
  unfold crawl_header.
  destruct (truthy (clean_header_text header)); cbn [negb]; [|by left].
  destruct (college_pattern_search (clean_header_text header)).
  - destruct (current st) as [c|] eqn:Hc.
    + destruct (decide (College.name c = clean_header_text header)) as [Heq|Hne].
      * left. by rewrite bool_decide_eq_true_2.
      * right; left. rewrite bool_decide_eq_false_2 by done.
        split; [done|]. split; [|done]. by intros c' [=<-].
    + right; left. split; [done|]. split; [|done]. by intros c' [=].
  - destruct (current_college st) as [i|] eqn:Hi; [|by left].
    destruct (current st) as [c|]; [|by left].
    destruct (contains _ _); cbn [negb]; [by left|].
    destruct (existsb _ _); [by left|].
    right; right. by eexists _, _.
Qed.

Lemma open_college_invariant st text :
  (∀ c, current st = Some c → College.name c ≠ text) →
  crawl_invariant st → crawl_invariant (open_college st text).
Proof.
  intros Hne [Hcur Hadj]. unfold crawl_invariant, open_college; simpl.
  split; [rewrite length_app; simpl; lia|].
  rewrite fmap_app. simpl. intros i a b Ha Hb.
  apply lookup_snoc_Some in Hb as [[Hlt Hb] | [Hlen <-]].
  - rewrite lookup_app_l in Ha by lia. by apply (Hadj i).
  - rewrite lookup_app_l in Ha by lia.
    rewrite length_fmap in Hlen.
    rewrite list_lookup_fmap in Ha.
    destruct (colleges st !! i) as [c|] eqn:Hc; [|done].
    injection Ha as <-. apply Hne. unfold current.
    destruct (current_college st) as [j|]; [|by rewrite Hcur in Hc].
    by replace j with i by lia.
Qed.

Lemma append_department_invariant st i d :
  crawl_invariant st → crawl_invariant (append_department st i d).
Proof.
  intros [Hcur Hadj]. unfold crawl_invariant, append_department; simpl.
  rewrite length_alter.
  rewrite (list_fmap_alter College.name _ id) by by apply Forall_true.
  rewrite (list_alter_id id) by done.
  split; [|done]. destruct (current_college st); [done|].
  by rewrite Hcur.
Qed.

Lemma crawl_header_invariant st header :
  crawl_invariant st → crawl_invariant (crawl_header st header).
Proof.
  intros Hst.
  destruct (crawl_header_cases st header)
    as [-> | [(_ & Hne & ->) | (i & d & _ & ->)]]; [done| |].
  - by apply open_college_invariant.
  - by apply append_department_invariant.
Qed.

(** C1 (amended). In every campus that [crawl_campus] returns, two
    neighbouring colleges never have the same name; a college header whose
    text is the name of the current college, the last one opened, changes
    nothing, and one with another name opens a new college at the end. *)
Theorem crawl_campus_adjacent_colleges url campus_name campus :
  value (crawl_campus url campus_name) = Some campus →
  adjacent_distinct (College.name <$> Campus.colleges campus) ∧
  (∀ st header,
     college_pattern_search (clean_header_text header) = true →
     clean_header_text header ≠ [] →
     (∀ c, current st = Some c →
        College.name c = clean_header_text header →
        crawl_header st header = st) ∧
     ((∀ c, current st = Some c →
         College.name c ≠ clean_header_text header) →
      crawl_header st header = open_college st (clean_header_text header))).
Proof.
  intros Hcampus. split.
  - unfold crawl_campus, get_soup, fetch_page in Hcampus. simpl in Hcampus.
    destruct (requests_get url REQUEST_TIMEOUT) as [text|]; [|done].
    simpl in Hcampus.
    destruct (main_h1 (BeautifulSoup text)) as [headers|]; [|done].
    simpl in Hcampus. injection Hcampus as <-. simpl.
    apply (fold_left_invariant crawl_invariant).
    + split; [done|]. by intros i a b [=].
    + intros st header _. apply crawl_header_invariant.
  - intros st header Hcollege Htext. unfold crawl_header.
    destruct (clean_header_text header) as [|c0 text] eqn:Hclean; [done|].
    cbn [truthy negb]. rewrite Hcollege. split.
    + intros c Hc Hname. rewrite Hc. by rewrite bool_decide_eq_true_2.
    + intros Hne. destruct (current st) as [c|]; [|done].
      by rewrite bool_decide_eq_false_2 by by apply Hne.
Qed.

End HierarchyProperties.

(** ** Serialisation *)

Lemma parse_board_to_dict b : parse_board (Board.to_dict b) = Some b.
Proof. by destruct b. Qed.

Lemma parse_department_to_dict (d : Department.t Board.t) :
  parse_department (Department.to_dict (Department.map_boards Board.to_dict d))
  = Some d.
Proof.
  destruct d as [id name url boards]. unfold parse_department. simpl.
  change (map Board.to_dict boards) with (Board.to_dict <$> boards).
  by rewrite (mapM_fmap_Some _ _ _ parse_board_to_dict).
Qed.

Lemma parse_college_to_dict (c : College.t Board.t) :
  parse_college (College.to_dict (College.map_boards Board.to_dict c)) = Some c.
Proof.
  destruct c as [name departments]. unfold parse_college. simpl.
  rewrite map_map.
  change (map (λ d, Department.to_dict (Department.map_boards Board.to_dict d))
            departments)
    with ((λ d, Department.to_dict (Department.map_boards Board.to_dict d))
            <$> departments).
  by rewrite (mapM_fmap_Some _ _ _ parse_department_to_dict).
Qed.

(** C9. Serialising a campus to the output shape, with the keys [campus],
    [colleges], [name], [departments], [id], [url], [boards] and the four
    selector keys, and reading that back gives the campus again. *)
Theorem parse_serialize_campus (c : Campus.t Board.t) :
  parse_campus (serialize_campus c) = Some c.
Proof.
  destruct c as [campus colleges]. unfold parse_campus, serialize_campus. simpl.
  rewrite map_map.
  change (map (λ c, College.to_dict (College.map_boards Board.to_dict c))
            colleges)
    with ((λ c, College.to_dict (College.map_boards Board.to_dict c))
            <$> colleges).
  by rewrite (mapM_fmap_Some _ _ _ parse_college_to_dict).
Qed.

(** ** The model on the pages *)

Example crawl_sinchon :
  value (@crawl_campus yonsei_env sinchon_url (u "신촌캠퍼스"))
  = Some sinchon_campus.
Proof. vm_compute. reflexivity. Qed.

Example extract_cs_sitemap :
  @_extract_boards_from_soup yonsei_env cs_sitemap_soup cs_url None
  = Ok [cs_academic; cs_academic_2].
Proof. vm_compute. reflexivity. Qed.

Example discover_cs :
  @discover_boards yonsei_env cs_info cs_url =
  (Ok {| BoardDiscoveryResult.boards := [cs_academic; cs_academic_2];
         BoardDiscoveryResult.manual_review := None |},
   [CallGetSoup cs_url 7; CallGetSoup cs_sitemap_url 5;
    CallExtract cs_sitemap_soup cs_url]).
Proof. vm_compute. reflexivity. Qed.

(** ** The theorems at the pages *)

(** C1 (as stated, refuted). On the page [sinchon_soup] the heading of
    the first college comes again after another college, and the campus has
    two colleges of that name. *)
Lemma crawl_campus_repeats_college :
  ∃ campus,
    value (@crawl_campus yonsei_env sinchon_url (u "신촌캠퍼스")) = Some campus ∧
    College.name <$> Campus.colleges campus
      = [u "공과대학"; u "문과대학"; u "공과대학"] ∧
    ¬ NoDup (College.name <$> Campus.colleges campus).
Proof.
  exists sinchon_campus. split; [vm_compute; reflexivity|].
  split; [reflexivity|]. intros Hnodup.
  apply NoDup_cons in Hnodup as [Hnotin _]. apply Hnotin.
  right. left.
Qed.

Lemma crawl_campus_adjacent_colleges_witness :
  value (@crawl_campus yonsei_env sinchon_url (u "신촌캠퍼스"))
    = Some sinchon_campus ∧
  adjacent_distinct (College.name <$> Campus.colleges sinchon_campus).
Proof.
  assert (H : value (@crawl_campus yonsei_env sinchon_url (u "신촌캠퍼스"))
              = Some sinchon_campus) by (vm_compute; reflexivity).
  split; [exact H|].
  exact (proj1 (@crawl_campus_adjacent_colleges yonsei_env _ _ _ H)).
Defined.





Lemma generate_department_id_spec_witness :
  matches_subdomain_pattern (u "https://econ.yonsei.ac.kr/") (u "econ") ∧
  @_generate_department_id yonsei_env (u "경제학부")
    (u "https://econ.yonsei.ac.kr/")
    = u "yonsei_" ++ @lower yonsei_env (u "econ").
Proof.
  assert (H : matches_subdomain_pattern (u "https://econ.yonsei.ac.kr/")
                (u "econ")).
  { exists (u "https"), (u "/"). split; [right; reflexivity|].
    split; [discriminate|]. split; [|reflexivity].
    apply (bool_decide_unpack _). vm_compute. exact I. }
  split; [exact H|].
  exact (proj1 (@generate_department_id_spec yonsei_env (u "경제학부")
                  (u "https://econ.yonsei.ac.kr/")) (u "econ") H).
Defined.

Lemma extract_boards_nth_id_witness :
  @_extract_boards_from_soup yonsei_env cs_sitemap_soup cs_url None
    = Ok [cs_academic; cs_academic_2] ∧
  [cs_academic; cs_academic_2] !! 1%nat = Some cs_academic_2 ∧
  ∃ X, board_category cs_academic_2 = Some X ∧
    let n := count_category X (take 2 [cs_academic; cs_academic_2]) in
    1 ≤ n ∧ (n = 1 → Board.id cs_academic_2 = X) ∧
    (1 < n → Board.id cs_academic_2 = X ++ u "_" ++ str_of_int n).
Proof.
  assert (H : @_extract_boards_from_soup yonsei_env cs_sitemap_soup cs_url None
              = Ok [cs_academic; cs_academic_2]) by (vm_compute; reflexivity).
  assert (H1 : [cs_academic; cs_academic_2] !! 1%nat = Some cs_academic_2)
    by reflexivity.
  split; [exact H|]. split; [exact H1|].
  exact (proj2 (proj2 (@extract_boards_nth_id yonsei_env cs_sitemap_soup
                         cs_url None)) _ 1%nat cs_academic_2 H H1).
Defined.

Lemma extract_boards_distinct_urls_witness :
  @_extract_boards_from_soup yonsei_env cs_sitemap_soup cs_url None
    = Ok [cs_academic; cs_academic_2] ∧
  NoDup (Board.url <$> [cs_academic; cs_academic_2]) ∧
  ∃ st,
    @extract_state yonsei_env cs_sitemap_soup cs_url
      (u "cs.yonsei.ac.kr") None (take 2 (anchors cs_sitemap_soup)) = Ok st ∧
    a_href (anchor (u "/board/academic.do") (u "학사공지"))
      = Some (u "/board/academic.do") ∧
    @urljoin yonsei_env cs_url (u "/board/academic.do")
      = Ok (u "https://cs.yonsei.ac.kr/board/academic.do") ∧
    u "https://cs.yonsei.ac.kr/board/academic.do" ∈ seen_urls st ∧
    @extract_link yonsei_env cs_sitemap_soup cs_url (u "cs.yonsei.ac.kr") None
      st (anchor (u "/board/academic.do") (u "학사공지")) = Ok st.
Proof.
  assert (H : @_extract_boards_from_soup yonsei_env cs_sitemap_soup cs_url None
              = Ok [cs_academic; cs_academic_2]) by (vm_compute; reflexivity).
  pose proof (@extract_boards_distinct_urls yonsei_env cs_sitemap_soup cs_url
                None) as (Hnodup & Hmarked & Hseen & _).
  split; [exact H|]. split; [exact (Hnodup _ H)|].
  destruct (@extract_state yonsei_env cs_sitemap_soup cs_url
              (u "cs.yonsei.ac.kr") None (take 2 (anchors cs_sitemap_soup)))
    as [st|e] eqn:Hst; [|vm_compute in Hst; discriminate Hst].
  exists st. split; [reflexivity|].
  assert (H1 : a_href (anchor (u "/board/academic.do") (u "학사공지"))
               = Some (u "/board/academic.do")) by reflexivity.
  assert (H2 : @urljoin yonsei_env cs_url (u "/board/academic.do")
               = Ok (u "https://cs.yonsei.ac.kr/board/academic.do"))
    by (vm_compute; reflexivity).
  assert (H3 : u "https://cs.yonsei.ac.kr/board/academic.do" ∈ seen_urls st).
  { apply (Hmarked (u "cs.yonsei.ac.kr") (take 2 (anchors cs_sitemap_soup)) st
             cs_academic Hst).
    vm_compute in Hst. injection Hst as <-. left. }
  split; [exact H1|]. split; [exact H2|]. split; [exact H3|].
  exact (Hseen (u "cs.yonsei.ac.kr") st _ _ _ H1 H2 H3).
Defined.


Lemma discovered_boards_known_selectors_witness :
  value (@discover_boards yonsei_env cs_info cs_url)
    = Ok {| BoardDiscoveryResult.boards := [cs_academic; cs_academic_2];
            BoardDiscoveryResult.manual_review := None |} ∧
  cs_academic ∈ [cs_academic; cs_academic_2] ∧
  known_selectors cs_academic ∧ Board.attr_name cs_academic = u "href".
Proof.
  assert (H : value (@discover_boards yonsei_env cs_info cs_url)
              = Ok {| BoardDiscoveryResult.boards := [cs_academic; cs_academic_2];
                      BoardDiscoveryResult.manual_review := None |})
    by (vm_compute; reflexivity).
  assert (Hb : cs_academic ∈ [cs_academic; cs_academic_2]) by left.
  split; [exact H|]. split; [exact Hb|].
  exact (proj1 (@discovered_boards_known_selectors yonsei_env cs_info cs_url)
           _ cs_academic H Hb).
Defined.

(** ** Scenarios of the specification *)

(** A link [학사공지] to a [.do] listing gives one board [academic] with the
    bundle of the primary CMS and an absolute URL. *)
Example scenario_academic_board :
  @_extract_boards_from_soup yonsei_env
    {| markup := [];
       anchors := [anchor (u "/board/list.do?menu=1") (u "학사공지")];
       main_h1 := None |}
    cs_url None
  = Ok [ make_board (u "academic") (u "학사공지")
           (u "https://cs.yonsei.ac.kr/board/list.do?menu=1")
           yonsei_cms_selectors ].
Proof. vm_compute. reflexivity. Qed.

(** A homepage that is not served: no board, one item, one call. *)
Example scenario_fetch_failed :
  @discover_boards yonsei_env cs_info (u "https://down.yonsei.ac.kr/") =
  (Ok {| BoardDiscoveryResult.boards := [];
         BoardDiscoveryResult.manual_review := Some
           {| ManualReviewItem.campus := u "신촌캠퍼스";
              ManualReviewItem.name := u "컴퓨터과학과";
              ManualReviewItem.url := u "https://down.yonsei.ac.kr/";
              ManualReviewItem.reason := u "Failed to fetch homepage" |} |},
   [CallGetSoup (u "https://down.yonsei.ac.kr/") 7]).
Proof. vm_compute. reflexivity. Qed.

(** A fetched page without a sitemap and without a board link: no board and
    no item. *)
Example scenario_no_board :
  @discover_boards yonsei_env cs_info sinchon_url =
  (Ok {| BoardDiscoveryResult.boards := [];
         BoardDiscoveryResult.manual_review := None |},
   [CallGetSoup sinchon_url 7; CallExtract sinchon_soup sinchon_url]).
Proof. vm_compute. reflexivity. Qed.

(** A link whose [href] has a bracket without its partner: [urljoin] raises
    and so does the extraction, whatever links come after it. *)
Example scenario_malformed_href :
  @_extract_boards_from_soup yonsei_env
    {| markup := [];
       anchors := [ anchor (u "/a.do") (u "공지사항");
                    anchor (u "//[") (u "공지사항");
                    anchor (u "/b.do") (u "공지사항") ];
       main_h1 := None |}
    cs_url None
  = Raise ValueError.
Proof. vm_compute. reflexivity. Qed.

(** The pattern of the id takes what comes before the first dot, and asks
    for nothing after the domain. *)
Example scenario_department_ids :
  @_generate_department_id yonsei_env (u "Econ Dept")
    (u "https://econ.yonsei.ac.kr") = u "yonsei_econ" ∧
  @_generate_department_id yonsei_env (u "Econ Dept") (u "NOT_FOUND")
    = u "yonsei_econ_dept" ∧
  @_generate_department_id yonsei_env (u "Econ Dept")
    (u "ftp://econ.yonsei.ac.kr/") = u "yonsei_econ_dept".
Proof. vm_compute. auto. Qed.

(** ** Further properties of board extraction *)

Lemma uint_digits_inj d1 d2 : uint_digits d1 = uint_digits d2 → d1 = d2.
Proof.
  revert d2. induction d1 as [|d1 IH|d1 IH|d1 IH|d1 IH|d1 IH|d1 IH|d1 IH|d1 IH
                              |d1 IH|d1 IH];
    intros [|d2|d2|d2|d2|d2|d2|d2|d2|d2|d2]; simpl; intros [=]; f_equal; auto.
Qed.

Lemma str_of_int_inj n m : str_of_int n = str_of_int m → n = m.
Proof.
  intros H. by apply DecimalN.Unsigned.to_uint_inj, uint_digits_inj.
Qed.

Lemma first_keyword_Some items text meta :
  first_keyword items text = Some meta →
  ∃ keyword, (keyword, meta) ∈ items ∧ contains keyword text = true.
Proof.
  unfold first_keyword.
  destruct (List.find _ items) as [[keyword meta']|] eqn:Hfind; [|done].
  intros [=<-]. apply find_some in Hfind as [Hin Hc].
  exists keyword. split; [by apply list_elem_of_In | done].
Qed.

Lemma board_category_ids b X : board_category b = Some X → X ∈ category_ids.
Proof.
  unfold board_category.
  destruct (first_keyword KEYWORD_MAP (Board.name b)) as [meta|] eqn:Hkw; [|done].
  intros [=<-]. apply first_keyword_Some in Hkw as (keyword & Hin & _).
  unfold category_ids. apply list_elem_of_fmap. by exists (keyword, meta).
Qed.

(** No category id begins with another one and an underscore. *)
Lemma category_ids_no_prefix X Y :
  X ∈ category_ids → Y ∈ category_ids → startswith (Y ++ u "_") X = false.
Proof.
  intros HX HY.
  assert (H : Forall (λ X, Forall (λ Y, startswith (Y ++ u "_") X = false)
                             category_ids) category_ids).
  { repeat (constructor; [repeat (constructor; [reflexivity|]); constructor|]).
    constructor. }
  rewrite Forall_forall in H. specialize (H X HX).
  rewrite Forall_forall in H. by apply H.
Qed.

(** The id of a category and a rank gives both back. *)
Lemma category_id_rank_inj X Y n m idX idY :
  X ∈ category_ids → Y ∈ category_ids → 1 ≤ n → 1 ≤ m →
  (n = 1 → idX = X) → (1 < n → idX = X ++ u "_" ++ str_of_int n) →
  (m = 1 → idY = Y) → (1 < m → idY = Y ++ u "_" ++ str_of_int m) →
  idX = idY → X = Y ∧ n = m.
Proof.
  intros HX HY Hn Hm Hn1 Hn2 Hm1 Hm2 Heq.
  assert (Hpre : ∀ A B r, A ∈ category_ids → B ∈ category_ids →
                   A = B ++ u "_" ++ r → False).
  { intros A B r HA HB HAB.
    pose proof (category_ids_no_prefix A B HA HB) as Hno.
    assert (startswith (B ++ u "_") A = true) as Hyes.
    { apply startswith_true. exists r. by rewrite <- app_assoc. }
    congruence. }
  destruct (decide (n = 1)) as [->|Hn'], (decide (m = 1)) as [->|Hm'].
  - rewrite Hn1, Hm1 in Heq by done. done.
  - rewrite Hn1, Hm2 in Heq by (done || lia). by destruct (Hpre X Y _ HX HY Heq).
  - rewrite Hn2, Hm1 in Heq by (done || lia).
    by destruct (Hpre Y X _ HY HX (eq_sym Heq)).
  - rewrite Hn2, Hm2 in Heq by lia.
    apply app_eq_inv in Heq as [(k & HXk & Hk) | (k & HYk & Hk)].
    + destruct k as [|c k].
      * rewrite app_nil_r in HXk. simpl in Hk. injection Hk as Hk.
        split; [done|]. by apply str_of_int_inj.
      * simpl in Hk. injection Hk as <- _.
        by destruct (Hpre X Y k HX HY).
    + destruct k as [|c k].
      * rewrite app_nil_r in HYk. simpl in Hk. injection Hk as Hk.
        split; [done|]. by apply str_of_int_inj.
      * simpl in Hk. injection Hk as <- _.
        by destruct (Hpre Y X k HY HX).
Qed.

Lemma count_category_take_le X bs a b :
  (a ≤ b)%nat → count_category X (take a bs) ≤ count_category X (take b bs).
Proof.
  intros Hab. rewrite <- (take_drop a (take b bs)), take_take.
  replace (a `min` b)%nat with a by lia.
  unfold count_category. rewrite filter_app, length_app. lia.
Qed.

Lemma count_category_take_S X bs i b :
  bs !! i = Some b → board_category b = Some X →
  count_category X (take (S i) bs) = count_category X (take i bs) + 1.
Proof.
  intros Hb HX. rewrite (take_S_r _ _ _ Hb), count_category_snoc.
  by rewrite decide_True.
Qed.

Section FurtherExtractProperties.
Context `{E : Env}.

Lemma ids_invariant_nodup st :
  ids_invariant st → NoDup (Board.id <$> boards st).
Proof.
  intros [_ Hids]. set (bs := boards st) in *.
  assert (Hlt : ∀ i j bi bj, (i < j)%nat → bs !! i = Some bi → bs !! j = Some bj →
                  Board.id bi ≠ Board.id bj).
  { intros i j bi bj Hij Hi Hj Heq.
    destruct (Hids i bi Hi) as (X & HX & Hn & Hn1 & Hn2).
    destruct (Hids j bj Hj) as (Y & HY & Hm & Hm1 & Hm2).
    cbv zeta in *.
    destruct (category_id_rank_inj X Y _ _ _ _
                (board_category_ids _ _ HX) (board_category_ids _ _ HY)
                Hn Hm Hn1 Hn2 Hm1 Hm2 Heq) as [<- Hrank].
    rewrite (count_category_take_S X bs j bj Hj HY) in Hrank.
    pose proof (count_category_take_le X bs (S i) j ltac:(lia)). lia. }
  apply NoDup_alt. intros i j x Hi Hj.
  rewrite list_lookup_fmap in Hi, Hj.
  destruct (bs !! i) as [bi|] eqn:Hbi; [|done].
  destruct (bs !! j) as [bj|] eqn:Hbj; [|done].
  injection Hi as Hi. injection Hj as Hj.
  destruct (Nat.lt_trichotomy i j) as [Hij | [Hij | Hij]]; [|done|].
  - destruct (Hlt i j bi bj Hij Hbi Hbj). congruence.
  - destruct (Hlt j i bj bi Hij Hbj Hbi). congruence.
Qed.

Lemma extract_ids_nodup soup base_url dflt bs :
  _extract_boards_from_soup soup base_url dflt = Ok bs →
  NoDup (Board.id <$> bs).
Proof.
  intros Hbs. apply extract_boards_Ok in Hbs as (netloc & st & _ & Hst & ->).
  by apply ids_invariant_nodup, (extract_state_ids_invariant _ _ _ _ _ _ Hst).
Qed.

(** X1. The ids of the boards that one call of the extraction returns are
    pairwise different: a category id with a rank is the id of no other
    category or rank. *)
Theorem extract_boards_distinct_ids soup base_url dflt bs :
  _extract_boards_from_soup soup base_url dflt = Ok bs →
  NoDup (Board.id <$> bs).
Proof. apply extract_ids_nodup. Qed.

Lemma is_valid_board_link_true text href :
  _is_valid_board_link text href = true ↔
  Forall (λ word, contains word href = false) board_link_blacklist ∧
  (length text ≤ 20)%nat.
Proof.
  unfold _is_valid_board_link, board_link_blacklist. cbn [existsb].
  rewrite !Forall_cons, Forall_nil.
  destruct (contains _ href); [split; [done | by intros [[? _] _]]|].
  destruct (contains _ href); [split; [done | by intros [[_ [? _]] _]]|].
  destruct (contains _ href); [split; [done | by intros [[_ [_ [? _]]] _]]|].
  destruct (contains _ href); [split; [done | by intros [(_ & _ & _ & ? & _) _]]|].
  destruct (contains _ href);
    [split; [done | by intros [(_ & _ & _ & _ & ? & _) _]]|].
  destruct (contains _ href);
    [split; [done | by intros [(_ & _ & _ & _ & _ & ? & _) _]]|].
  cbn [orb]. destruct (Nat.ltb_spec 20 (length text)).
  - split; [done | intros [_ ?]; lia].
  - split; [intros _; split; [done | lia] | done].
Qed.

(** No keyword of the table is in the empty text. *)
Lemma keyword_not_in_empty keyword meta :
  (keyword, meta) ∈ KEYWORD_MAP → contains keyword [] = false.
Proof.
  intros Hin.
  assert (Hk : Forall (λ kv, contains (fst kv) [] = false) KEYWORD_MAP)
    by (repeat (constructor; [reflexivity|]); constructor).
  rewrite Forall_forall in Hk. by apply (Hk _ Hin).
Qed.

(** X2. The name of every board that the extraction returns is the text of
    its link, so the name of the category, which stands in for an empty
    text, is never taken for it: the name is not empty, has at most 20
    characters and contains a keyword of the table, and the [href] of the
    link has none of the blacklisted words. *)
Theorem extract_boards_names soup base_url dflt bs b :
  _extract_boards_from_soup soup base_url dflt = Ok bs →
  b ∈ bs →
  ∃ link href keyword meta,
    link ∈ anchors soup ∧ a_href link = Some href ∧
    Board.name b = a_text link ∧
    Board.name b ≠ [] ∧ (length (Board.name b) ≤ 20)%nat ∧
    (keyword, meta) ∈ KEYWORD_MAP ∧ contains keyword (Board.name b) = true ∧
    Forall (λ word, contains word href = false) board_link_blacklist.
Proof.
  intros Hbs Hb.
  apply extract_boards_Ok in Hbs as (base_netloc & st & _ & Hst & ->).
  pose proof (extract_state_boards_from_links _ _ _ _ _ _ Hst) as Hall.
  rewrite Forall_forall in Hall.
  destruct (Hall b Hb)
    as (link & href & keyword & meta & netloc & Hlink & Hhref & Hname & _
        & Hvalid & _ & _ & Hin & Hc & _).
  apply is_valid_board_link_true in Hvalid as [Hblack Hlen].
  exists link, href, keyword, meta. rewrite Hname.
  repeat split; try done.
  intros Hnil. rewrite Hnil in Hc.
  rewrite (keyword_not_in_empty _ _ Hin) in Hc. done.
Qed.

(** X3. The selectors of every board that the extraction returns are those
    detected on the scanned document for the URL of the board, and the
    default only when that detection gives none; with no default, on a
    document without a marker of either CMS, every board has a URL with
    [.do] and the selectors of the primary CMS. *)
Theorem extract_boards_selectors_source soup base_url dflt bs b :
  _extract_boards_from_soup soup base_url dflt = Ok bs →
  b ∈ bs →
  py_or (detect_cms_selectors soup (Board.url b)) dflt
    = Some (board_selectors b) ∧
  (∀ selectors,
     detect_cms_selectors soup (Board.url b) = Some selectors →
     board_selectors b = selectors) ∧
  (dflt = None →
   contains (u "c-board-title") (lower (markup soup)) = false →
   contains (u "xe-list-board") (lower (markup soup)) = false →
   contains (u "xe_board") (lower (markup soup)) = false →
   contains (u ".do") (Board.url b) = true ∧
   board_selectors b = yonsei_cms_selectors).
Proof.
  intros Hbs Hb.
  apply extract_boards_Ok in Hbs as (base_netloc & st & _ & Hst & ->).
  pose proof (extract_state_boards_from_links _ _ _ _ _ _ Hst) as Hall.
  rewrite Forall_forall in Hall.
  destruct (Hall b Hb)
    as (_ & _ & _ & _ & _ & _ & _ & _ & _ & _ & _ & _ & _ & _ & _ & _ & Hsel).
  split; [done|]. split.
  - intros selectors Hdetect. rewrite Hdetect in Hsel. simpl in Hsel. congruence.
  - intros -> Hm1 Hm2 Hm3. revert Hsel. unfold detect_cms_selectors.
    rewrite Hm1, Hm2, Hm3, orb_false_r.
    destruct (contains _ (Board.url b)); simpl; [|done].
    intros Hsel. split; [done|]. symmetry. by apply (inj Some).
Qed.

End FurtherExtractProperties.

(** ** Further properties of board discovery *)

Section FurtherDiscoveryProperties.
Context `{E : Env}.

(** X4. A result that [discover_boards] returns never has both boards and
    a review item; its boards have pairwise different URLs and pairwise
    different ids, and each has the network location of the homepage URL
    in lower case, also when it comes from the sitemap, and a name of 1 to
    20 characters. *)
Theorem discover_boards_result_boards dept_info dept_url result :
  value (discover_boards dept_info dept_url) = Ok result →
  (is_Some (BoardDiscoveryResult.manual_review result) →
   BoardDiscoveryResult.boards result = []) ∧
  NoDup (Board.url <$> BoardDiscoveryResult.boards result) ∧
  NoDup (Board.id <$> BoardDiscoveryResult.boards result) ∧
  (∀ b, b ∈ BoardDiscoveryResult.boards result →
     same_netloc (Board.url b) dept_url ∧
     (1 ≤ length (Board.name b) ≤ 20)%nat).
Proof.
  intros Hresult.
  destruct (discover_boards_boards_cases _ _ _ Hresult)
    as [-> | (Hnone & soup & home_soup & Hbs)].
  { split; [done|]. split; [constructor|]. split; [constructor|].
    intros b Hb. by apply elem_of_nil in Hb. }
  split; [rewrite Hnone; by intros [? [=]]|].
  split.
  { apply extract_boards_Ok in Hbs as (netloc & st & _ & Hst & ->).
    apply (extract_state_urls_invariant _ _ _ _ _ _ Hst). }
  split; [by apply (extract_ids_nodup _ _ _ _ Hbs)|].
  intros b Hb.
  apply extract_boards_Ok in Hbs as (base_netloc & st & Hbase & Hst & Heq).
  rewrite Heq in Hb.
  pose proof (extract_state_boards_from_links _ _ _ _ _ _ Hst) as Hall.
  rewrite Forall_forall in Hall.
  destruct (Hall b Hb)
    as (link & href & keyword & meta & netloc & _ & _ & Hname & _ & Hvalid
        & _ & _ & Hin & Hc & Hnetloc & Hdom & _).
  split; [by exists netloc, base_netloc|].
  apply is_valid_board_link_true in Hvalid as [_ Hlen]. rewrite Hname.
  split; [|done].
  destruct (a_text link); [|simpl; lia].
  by rewrite (keyword_not_in_empty _ _ Hin) in Hc.
Qed.

End FurtherDiscoveryProperties.

(** ** Further properties of the department hierarchy *)

Lemma contains_true p s : contains p s = true ↔ ∃ a b, s = a ++ p ++ b.
Proof.
  induction s as [|c s IH]; simpl.
  - rewrite orb_false_r, startswith_true. split.
    + intros [r Hr]. by exists [], r.
    + intros (a & b & Hab). symmetry in Hab.
      apply app_eq_nil in Hab as [-> Hab]. apply app_eq_nil in Hab as [-> ->].
      by exists [].
  - rewrite orb_true_iff, startswith_true, IH. split.
    + intros [[r Hr] | (a & b & Hab)].
      * by exists [], r.
      * exists (c :: a), b. by rewrite Hab.
    + intros (a & b & Hab). destruct a as [|c' a].
      * left. by exists b.
      * right. injection Hab as _ Hab. by exists a, b.
Qed.

Lemma contains_app_false p a s b :
  contains p (a ++ s ++ b) = false → contains p s = false.
Proof.
  intros Hfalse. destruct (contains p s) eqn:Hs; [|done].
  apply contains_true in Hs as (a' & b' & ->).
  assert (contains p (a ++ (a' ++ p ++ b') ++ b) = true); [|congruence].
  apply contains_true. exists (a ++ a'), (b' ++ b).
  by rewrite <- !app_assoc.
Qed.

Lemma lstrip_while_suffix f s : ∃ k, s = k ++ lstrip_while f s.
Proof.
  induction s as [|c s [k Hk]]; simpl; [by exists []|].
  destruct (f c); [|by exists []].
  exists (c :: k). simpl. by f_equal.
Qed.

Lemma lstrip_while_head f s c :
  head (lstrip_while f s) = Some c → f c = false.
Proof.
  induction s as [|d s IH]; simpl; [done|].
  destruct (f d) eqn:Hd; [done|]. simpl. by intros [=<-].
Qed.

Lemma last_rev {A} (l : list A) : last (rev l) = head l.
Proof. rewrite rev_alt. apply last_reverse. Qed.

Lemma head_rev {A} (l : list A) : head (rev l) = last l.
Proof. rewrite rev_alt. apply head_reverse. Qed.

(** [strip] takes a piece of the string, with no white space at its ends. *)
Lemma strip_spec s :
  (∃ a b, s = a ++ strip s ++ b) ∧
  (∀ c, head (strip s) = Some c → isspace c = false) ∧
  (∀ c, last (strip s) = Some c → isspace c = false).
Proof.
  unfold strip, rstrip, lstrip.
  destruct (lstrip_while_suffix isspace s) as [k1 Hk1].
  set (L := lstrip_while isspace s) in *.
  destruct (lstrip_while_suffix isspace (rev L)) as [k2 Hk2].
  set (R := lstrip_while isspace (rev L)) in *.
  assert (HL : L = rev R ++ rev k2).
  { rewrite <- rev_app_distr, <- Hk2. by rewrite rev_involutive. }
  split; [|split].
  - exists k1, (rev k2). by rewrite <- HL.
  - intros c Hc. rewrite head_rev in Hc.
    apply (lstrip_while_head isspace s c). fold L. rewrite HL.
    apply last_Some in Hc as [R' HR].
    rewrite HR, rev_app_distr. done.
  - intros c Hc. rewrite last_rev in Hc.
    by apply (lstrip_while_head isspace (rev L) c).
Qed.

(** While a match is consumed, what comes out next is the end of the line. *)
Lemma re_sub_tail_skipping marker s :
  re_sub_tail marker true s = [] ∨ ∃ r, re_sub_tail marker true s = 10 :: r.
Proof.
  induction s as [|c s IH]; simpl; [by left|].
  destruct (N.eqb_spec c 10) as [->|_]; [right; by eexists | done].
Qed.

Lemma startswith_re_sub_tail marker p s :
  10 ∉ p → startswith p (re_sub_tail marker false s) = true →
  startswith p s = true.
Proof.
  revert p. induction s as [|c s IH]; intros p Hp; simpl; [done|].
  destruct (startswith marker (c :: s)) eqn:Hm.
  - destruct p as [|d p]; [done|].
    apply not_elem_of_cons in Hp as [Hd _].
    destruct (re_sub_tail_skipping marker s) as [-> | [r ->]]; simpl; [done|].
    destruct (N.eqb_spec d 10); [done | by simpl].
  - destruct p as [|d p]; [done|]. simpl.
    apply not_elem_of_cons in Hp as [_ Hp].
    destruct (d =? c); simpl; [by apply IH | done].
Qed.

Lemma contains_re_sub_tail marker p s skipping :
  p ≠ [] → 10 ∉ p → contains p (re_sub_tail marker skipping s) = true →
  contains p s = true.
Proof.
  intros Hne Hp. revert skipping.
  induction s as [|c s IH]; intros skipping; simpl; [done|].
  assert (Hnl : ∀ r, startswith p (10 :: r) = false).
  { intros r. destruct p as [|d p]; [done|]. simpl.
    apply not_elem_of_cons in Hp as [Hd _].
    by destruct (N.eqb_spec d 10). }
  destruct skipping.
  - destruct (N.eqb_spec c 10) as [->|_].
    + simpl. rewrite Hnl. simpl. intros H. apply IH in H. rewrite H.
      apply orb_true_r.
    + intros H. apply IH in H. rewrite H. apply orb_true_r.
  - destruct (startswith marker (c :: s)) eqn:Hm.
    + intros H. apply IH in H. rewrite H. apply orb_true_r.
    + simpl. intros H. apply orb_true_iff in H as [H | H].
      * assert (startswith p (re_sub_tail marker false (c :: s)) = true)
          as H' by (simpl; by rewrite Hm).
        apply startswith_re_sub_tail in H'; [|done].
        simpl in H'. by rewrite H'.
      * apply IH in H. rewrite H. apply orb_true_r.
Qed.

Lemma re_sub_tail_no_marker marker s skipping :
  marker ≠ [] → 10 ∉ marker →
  contains marker (re_sub_tail marker skipping s) = false.
Proof.
  intros Hne Hp. revert skipping.
  induction s as [|c s IH]; intros skipping; simpl.
  { destruct marker; [done | by destruct skipping]. }
  assert (Hnl : ∀ r, startswith marker (10 :: r) = false).
  { intros r. destruct marker as [|d p]; [done|]. simpl.
    apply not_elem_of_cons in Hp as [Hd _].
    by destruct (N.eqb_spec d 10). }
  destruct skipping.
  - destruct (N.eqb_spec c 10) as [->|_]; [|apply IH].
    simpl. by rewrite Hnl, IH.
  - destruct (startswith marker (c :: s)) eqn:Hm; [apply IH|].
    simpl. rewrite IH, orb_false_r.
    destruct (startswith marker (c :: re_sub_tail marker false s)) eqn:Hs;
      [|done].
    assert (startswith marker (re_sub_tail marker false (c :: s)) = true)
      as H' by (simpl; by rewrite Hm).
    apply startswith_re_sub_tail in H'; [|done]. congruence.
Qed.

(** X5. The cleaned text of a heading contains neither of the two
    markers, [교수진] and [홈페이지], and has no white space at its
    beginning or at its end. *)
Theorem clean_header_text_clean header :
  contains (u "교수진") (clean_header_text header) = false ∧
  contains (u "홈페이지") (clean_header_text header) = false ∧
  (∀ c, head (clean_header_text header) = Some c → isspace c = false) ∧
  (∀ c, last (clean_header_text header) = Some c → isspace c = false).
Proof.
  unfold clean_header_text.
  set (t1 := re_sub_tail (u "교수진") false (h_text header)).
  set (t2 := re_sub_tail (u "홈페이지") false t1).
  destruct (strip_spec t2) as ((a & b & Hab) & Hhead & Hlast).
  assert (Hnl1 : 10 ∉ u "교수진") by by apply (bool_decide_unpack _).
  assert (Hnl2 : 10 ∉ u "홈페이지") by by apply (bool_decide_unpack _).
  split; [|split; [|by split]].
  - apply (contains_app_false _ a _ b). rewrite <- Hab.
    destruct (contains (u "교수진") t2) eqn:Ht2; [|done].
    apply contains_re_sub_tail in Ht2; [|done..].
    unfold t1 in Ht2. by rewrite re_sub_tail_no_marker in Ht2.
  - apply (contains_app_false _ a _ b). rewrite <- Hab.
    by apply re_sub_tail_no_marker.
Qed.

Lemma college_pattern_search_nil : college_pattern_search [] = false.
Proof. reflexivity. Qed.

Lemma sum_list_with_alter {A} (f : A → nat) (g : A → A) (l : list A) i x :
  l !! i = Some x →
  (sum_list_with f (alter g i l) + f x = sum_list_with f l + f (g x))%nat.
Proof.
  revert i. induction l as [|y l IH]; intros i Hx; [done|].
  destruct i as [|i]; simpl in *.
  - injection Hx as ->. lia.
  - specialize (IH i Hx). change (list_alter g i l) with (alter g i l). lia.
Qed.

Section FurtherHierarchyProperties.
Context `{E : Env}.

Lemma extract_department_url_loop_spec siblings :
  extract_department_url_loop siblings = u "NOT_FOUND" ∨
  ∃ i sibling link x,
    siblings !! i = Some sibling ∧
    find_homepage_link sibling = Some link ∧
    a_string link = Some x ∧ contains (u "홈페이지") x = true ∧
    a_href link = Some (extract_department_url_loop siblings) ∧
    extract_department_url_loop siblings ≠ [] ∧
    startswith (u "#") (extract_department_url_loop siblings) = false.
Proof.
  induction siblings as [|sibling siblings IH];
    cbn [extract_department_url_loop]; [by left|].
  assert (Hrest :
    extract_department_url_loop siblings = u "NOT_FOUND" ∨
    ∃ i sibling' link x,
      (sibling :: siblings) !! i = Some sibling' ∧
      find_homepage_link sibling' = Some link ∧
      a_string link = Some x ∧ contains (u "홈페이지") x = true ∧
      a_href link = Some (extract_department_url_loop siblings) ∧
      extract_department_url_loop siblings ≠ [] ∧
      startswith (u "#") (extract_department_url_loop siblings) = false).
  { destruct IH as [? | (i & s' & link & x & ? & ?)]; [by left|].
    right. by exists (S i), s', link, x. }
  destruct (find_homepage_link sibling) as [link|] eqn:Hfind; [|done].
  destruct (a_href link) as [href|] eqn:Hhref; [|done].
  destruct (truthy href && negb (startswith (u "#") href)) eqn:Hok; [|done].
  right. apply andb_true_iff in Hok as [Htruthy Hfrag].
  apply negb_true_iff in Hfrag.
  pose proof Hfind as Hfind'.
  unfold find_homepage_link in Hfind'. apply find_some in Hfind' as [_ Hx].
  destruct (a_string link) as [x|] eqn:Hstring; [|done].
  apply andb_true_iff in Hx as [_ Hx].
  exists 0%nat, sibling, link, x.
  repeat split; try done. by destruct href.
Qed.

(** X6. The URL found for a department is never empty and never begins
    with [#]; it is [NOT_FOUND] or the [href] of the first link whose text
    has [홈페이지] in one of the first three siblings. *)
Theorem extract_department_url_spec header :
  _extract_department_url header ≠ [] ∧
  startswith (u "#") (_extract_department_url header) = false ∧
  (_extract_department_url header = u "NOT_FOUND" ∨
   ∃ i sibling link x,
     (i < 3)%nat ∧ h_siblings header !! i = Some sibling ∧
     find_homepage_link sibling = Some link ∧
     a_string link = Some x ∧ contains (u "홈페이지") x = true ∧
     a_href link = Some (_extract_department_url header)).
Proof.
  unfold _extract_department_url.
  destruct (extract_department_url_loop_spec (take 3 (h_siblings header)))
    as [-> | (i & sibling & link & x & Hi & Hfind & Hx & Hc & Hhref & Hne & Hfrag)].
  { split; [done|]. split; [done | by left]. }
  split; [done|]. split; [done|]. right.
  exists i, sibling, link, x.
  assert (i < 3)%nat as Hlt.
  { apply lookup_lt_Some in Hi. rewrite length_take in Hi. lia. }
  rewrite lookup_take_lt in Hi by done. done.
Qed.

(** X7. Every department id begins with [yonsei_]; for every URL that has
    not the shape of the subdomain pattern, as [NOT_FOUND] and the empty
    one, the id is [yonsei_] and the name in lower case with its spaces
    made underscores, and it has no space. *)
Theorem generate_department_id_shape name url :
  startswith (u "yonsei_") (_generate_department_id name url) = true ∧
  ((∀ sub, ¬ matches_subdomain_pattern url sub) →
   _generate_department_id name url
     = u "yonsei_" ++ replace_char 32 95 (lower name) ∧
   (32 ∉ _generate_department_id name url)) ∧
  _generate_department_id name (u "NOT_FOUND")
    = u "yonsei_" ++ replace_char 32 95 (lower name) ∧
  _generate_department_id name []
    = u "yonsei_" ++ replace_char 32 95 (lower name).
Proof.
  assert (Hname : 32 ∉ u "yonsei_" ++ replace_char 32 95 (lower name)).
  { intros Hin. apply elem_of_app in Hin as [Hin | Hin].
    - revert Hin. by apply (bool_decide_unpack _).
    - unfold replace_char in Hin. apply list_elem_of_In, in_map_iff in Hin
        as (c & Hc & _).
      destruct (N.eqb_spec c 32); [done | congruence]. }
  split; [|split; [|split; reflexivity]].
  - unfold _generate_department_id.
    destruct (_ && _); [destruct (subdomain_match url)|]; reflexivity.
  - intros Hno.
    assert (Hid : _generate_department_id name url
                  = u "yonsei_" ++ replace_char 32 95 (lower name)).
    { unfold _generate_department_id.
      destruct (subdomain_match url) as [sub|] eqn:Hsub.
      - apply subdomain_match_Some in Hsub. by destruct (Hno sub).
      - by destruct (_ && _). }
    split; [done|]. by rewrite Hid.
Qed.

Lemma crawl_state_snoc headers header :
  crawl_state (headers ++ [header])
  = crawl_header (crawl_state headers) header.
Proof. unfold crawl_state. by rewrite fold_left_app. Qed.

(** What a turn of the header loop does, with all that it tests. *)
Lemma crawl_header_turn st header :
  let text := clean_header_text header in
  crawl_header st header = st ∨
  (text ≠ [] ∧ college_pattern_search text = true ∧
   crawl_header st header = open_college st text) ∨
  (∃ i c,
     current_college st = Some i ∧ colleges st !! i = Some c ∧
     text ≠ [] ∧ college_pattern_search text = false ∧
     contains (u "대학") text = false ∧
     (text ∉ Department.name <$> College.departments c) ∧
     crawl_header st header =
     append_department st i
       (Department.Build_t
          (_generate_department_id text (_extract_department_url header))
          text (_extract_department_url header) [])).
Proof.
  cbv zeta. unfold crawl_header.
  destruct (clean_header_text header) as [|c0 text] eqn:Htext; [by left|].
  cbn [truthy negb].
  destruct (college_pattern_search (c0 :: text)) eqn:Hcollege.
  - destruct (current st) as [c|]; [|by right; left].
    destruct (bool_decide _); [by left | by right; left].
  - unfold current.
    destruct (current_college st) as [i|] eqn:Hi; [|by left].
    destruct (colleges st !! i) as [c|] eqn:Hc; [|by left].
    destruct (contains _ (c0 :: text)) eqn:Hdaehak; cbn [negb]; [by left|].
    destruct (existsb _ _) eqn:Hdup; [by left|].
    right; right. exists i, c. repeat split; try done.
    intros Hin. apply list_elem_of_fmap in Hin as (d & Hd & Hin).
    assert (existsb (λ d, bool_decide (Department.name d = c0 :: text))
              (College.departments c) = true); [|congruence].
    apply existsb_exists. exists d. split; [by apply list_elem_of_In|].
    by apply bool_decide_eq_true.
Qed.

Lemma college_from_headers_mono headers header c :
  college_from_headers headers c →
  college_from_headers (headers ++ [header]) c.
Proof.
  intros ((h & Hh & Hname) & Hpat & Hnodup & Hdepts).
  split; [exists h; split; [apply elem_of_app; by left | done]|].
  split; [done|]. split; [done|]. eapply Forall_impl; [done|].
  intros d (h' & Hh' & Hd). exists h'. split; [apply elem_of_app; by left | done].
Qed.

(** Every college of the loop comes from the headings seen. *)
Lemma crawl_state_colleges headers :
  Forall (college_from_headers headers) (colleges (crawl_state headers)).
Proof.
  induction headers as [|header headers IH] using rev_ind; [constructor|].
  rewrite crawl_state_snoc.
  assert (IH' : Forall (college_from_headers (headers ++ [header]))
                  (colleges (crawl_state headers))).
  { eapply Forall_impl; [done|]. intros c. apply college_from_headers_mono. }
  destruct (crawl_header_turn (crawl_state headers) header)
    as [-> | [(Hne & Hcollege & ->)
             | (i & c & Hi & Hc & Hne & Hcollege & Hdaehak & Hnew & ->)]];
    [done| |].
  - unfold open_college; cbn [colleges]. apply Forall_app. split; [done|].
    apply Forall_singleton.
    split; [exists header; split; [apply elem_of_app; right; left | done]|].
    split; [done|]. split; [constructor | constructor].
  - unfold append_department; cbn [colleges].
    apply Forall_forall. intros c' Hc'.
    apply list_elem_of_lookup in Hc' as [j Hj].
    rewrite Forall_forall in IH'.
    destruct (decide (i = j)) as [<-|Hij].
    + rewrite list_lookup_alter_eq, Hc in Hj. simpl in Hj. injection Hj as <-.
      destruct (IH' c) as (Hname & Hpat & Hnodup & Hdepts).
      { apply list_elem_of_lookup. by exists i. }
      split; [done|]. split; [done|]. cbn [College.departments]. split.
      * rewrite fmap_app. apply NoDup_app. split; [done|].
        split; [|apply NoDup_singleton].
        intros x Hx Hx'. apply list_elem_of_singleton in Hx' as ->. done.
      * apply Forall_app. split; [done|]. apply Forall_singleton.
        exists header. split; [apply elem_of_app; right; left|].
        by repeat split.
    + rewrite list_lookup_alter_ne in Hj by done.
      apply IH'. apply list_elem_of_lookup. by exists j.
Qed.

Lemma crawl_campus_Some url campus_name campus :
  value (crawl_campus url campus_name) = Some campus ↔
  ∃ text headers,
    requests_get url 10 = Some text ∧
    main_h1 (BeautifulSoup text) = Some headers ∧
    campus = Campus.Build_t campus_name (colleges (crawl_state headers)).
Proof.
  unfold crawl_campus, get_soup, fetch_page, REQUEST_TIMEOUT. simpl.
  destruct (requests_get url 10) as [text|] eqn:Hget; simpl.
  2: { split; [done | by intros (? & ? & [=] & _)]. }
  destruct (main_h1 (BeautifulSoup text)) as [headers|] eqn:Hmain; simpl.
  - split.
    + intros [=<-]. by exists text, headers.
    + intros (? & ? & [=<-] & Hm & ->). rewrite Hmain in Hm.
      by injection Hm as <-.
  - split; [done|]. intros (? & ? & [=<-] & Hm & _). congruence.
Qed.


(** X9. In every college of a campus that [crawl_campus] returns, the
    departments have pairwise different names. *)
Theorem crawl_campus_distinct_departments url campus_name campus c :
  value (crawl_campus url campus_name) = Some campus →
  c ∈ Campus.colleges campus →
  NoDup (Department.name <$> College.departments c).
Proof.
  intros Hcampus Hc.
  apply crawl_campus_Some in Hcampus as (text & headers & _ & _ & ->).
  pose proof (crawl_state_colleges headers) as Hall.
  rewrite Forall_forall in Hall.
  by destruct (Hall c Hc) as (_ & _ & Hnodup & _).
Qed.

(** X10. Every college of a campus that [crawl_campus] returns has the
    cleaned text of a heading of the page as name, and this name matches
    the college pattern; every department has the cleaned text of a heading
    as name, not empty, without [대학], the URL found at that heading, the
    id made from this name and URL, and no boards. *)
Theorem crawl_campus_entities url campus_name campus :
  value (crawl_campus url campus_name) = Some campus →
  ∃ text headers,
    requests_get url 10 = Some text ∧
    main_h1 (BeautifulSoup text) = Some headers ∧
    ∀ c, c ∈ Campus.colleges campus →
      (∃ header, header ∈ headers ∧ College.name c = clean_header_text header) ∧
      college_pattern_search (College.name c) = true ∧
      ∀ d, d ∈ College.departments c →
        ∃ header, header ∈ headers ∧ department_from_header header d.
Proof.
  intros Hcampus.
  apply crawl_campus_Some in Hcampus as (text & headers & Hget & Hmain & ->).
  exists text, headers. split; [done|]. split; [done|].
  intros c Hc.
  pose proof (crawl_state_colleges headers) as Hall.
  rewrite Forall_forall in Hall.
  destruct (Hall c Hc) as (Hname & Hpat & _ & Hdepts).
  split; [done|]. split; [done|]. by apply Forall_forall.
Qed.

End FurtherHierarchyProperties.

Section CampusPageProperties.
Context `{E : Env}.

Lemma total_departments_app cs cs' :
  total_departments (cs ++ cs') = (total_departments cs + total_departments cs')%nat.
Proof. apply sum_list_with_app. Qed.

Lemma crawl_state_counts headers :
  (length (colleges (crawl_state headers))
     ≤ length (filter (λ h, is_college_header h = true) headers))%nat ∧
  (total_departments (colleges (crawl_state headers))
     ≤ length (filter (λ h, is_college_header h = false) headers))%nat.
Proof.
  induction headers as [|header headers [IHc IHd]] using rev_ind;
    [split; reflexivity|].
  rewrite crawl_state_snoc, !filter_app, !length_app.
  rewrite !filter_cons, !filter_nil. unfold is_college_header in *.
  destruct (crawl_header_turn (crawl_state headers) header)
    as [-> | [(Hne & Hcollege & ->)
             | (i & c & Hi & Hc & Hne & Hcollege & Hdaehak & Hnew & ->)]].
  - split; lia.
  - unfold open_college; cbn [colleges].
    rewrite length_app, total_departments_app. cbn.
    rewrite decide_True by done. rewrite decide_False by congruence.
    simpl. split; lia.
  - unfold append_department; cbn [colleges]. rewrite length_alter.
    rewrite decide_False by congruence. rewrite decide_True by done.
    unfold total_departments in *.
    match goal with
    | |- context [alter ?g i _] =>
      pose proof (sum_list_with_alter
                    (λ c, length (College.departments c)) g
                    (colleges (crawl_state headers)) i c Hc) as Hsum
    end.
    cbn [College.departments] in Hsum. rewrite length_app in Hsum.
    cbn [length] in *. split; lia.
Qed.

Lemma crawl_state_before_college pre :
  Forall (λ h, is_college_header h = false) pre →
  crawl_state pre = {| colleges := []; current_college := None |}.
Proof.
  induction pre as [|header pre IH] using rev_ind; intros Hpre; [done|].
  apply Forall_app in Hpre as [Hpre Hheader].
  rewrite Forall_singleton in Hheader.
  rewrite crawl_state_snoc, IH by done.
  unfold crawl_header, is_college_header in *. rewrite Hheader.
  by destruct (truthy _).
Qed.

(** X11. Every heading makes at most one college or one department: a
    campus has no more colleges than the page has college headings, and no
    more departments than it has other headings. *)
Theorem crawl_campus_counts url campus_name campus :
  value (crawl_campus url campus_name) = Some campus →
  ∃ text headers,
    requests_get url 10 = Some text ∧
    main_h1 (BeautifulSoup text) = Some headers ∧
    (length (Campus.colleges campus)
       ≤ length (filter (λ h, is_college_header h = true) headers))%nat ∧
    (total_departments (Campus.colleges campus)
       ≤ length (filter (λ h, is_college_header h = false) headers))%nat.
Proof.
  intros Hcampus.
  apply crawl_campus_Some in Hcampus as (text & headers & Hget & Hmain & ->).
  exists text, headers. split; [done|]. split; [done|].
  apply crawl_state_counts.
Qed.

(** X12. The headings before the first college heading make nothing: the
    campus is the one of the headings from the first college heading on,
    and a page without a college heading gives a campus without
    colleges. *)
Theorem crawl_campus_before_first_college url campus_name campus text pre rest :
  value (crawl_campus url campus_name) = Some campus →
  requests_get url 10 = Some text →
  main_h1 (BeautifulSoup text) = Some (pre ++ rest) →
  Forall (λ h, is_college_header h = false) pre →
  Campus.colleges campus = colleges (crawl_state rest) ∧
  (rest = [] → Campus.colleges campus = []).
Proof.
  intros Hcampus Hget Hmain Hpre.
  apply crawl_campus_Some in Hcampus as (text' & headers & Hget' & Hmain' & ->).
  rewrite Hget in Hget'. injection Hget' as <-.
  rewrite Hmain in Hmain'. injection Hmain' as <-.
  assert (Heq : crawl_state (pre ++ rest) = crawl_state rest).
  { unfold crawl_state at 1. rewrite fold_left_app.
    fold (crawl_state pre). by rewrite crawl_state_before_college. }
  cbn [Campus.colleges]. rewrite Heq. split; [done|]. by intros ->.
Qed.

Lemma crawl_campus_calls url campus_name :
  calls (crawl_campus url campus_name) = [CallGetSoup url 10].
Proof.
  unfold crawl_campus, get_soup, fetch_page, REQUEST_TIMEOUT. simpl.
  destruct (requests_get url 10) as [text|]; [|done]. simpl.
  by destruct (main_h1 (BeautifulSoup text)).
Qed.

Lemma length_omap_le {A B} (f : A → option B) (l : list A) :
  (length (omap f l) ≤ length l)%nat.
Proof.
  induction l as [|x l IH]; [done|]. cbn [omap list_omap].
  destruct (f x); simpl; lia.
Qed.

Lemma crawl_campuses_loop_spec items campuses :
  crawl_campuses_loop items campuses =
  (campuses ++ omap (λ item, value (crawl_campus (fst item) (snd item))) items,
   (λ item, CallGetSoup (fst item) 10) <$> items).
Proof.
  revert campuses. induction items as [|[url name] items IH]; intros campuses.
  { simpl. by rewrite app_nil_r. }
  cbn [crawl_campuses_loop omap list_omap fmap list_fmap fst snd].
  pose proof (crawl_campus_calls url name) as Hcalls.
  destruct (crawl_campus url name) as [[campus|] log]; simpl in Hcalls;
    subst log; unfold mbind, eff_bind; rewrite IH; simpl.
  - by rewrite <- app_assoc.
  - done.
Qed.


End CampusPageProperties.

(** ** Properties of [main] *)

Section MainProperties.
Context `{E : Env}.

Lemma serialize_department_keys d :
  get_str (u "name") (serialize_department d) = Some (Department.name d) ∧
  get_str (u "url") (serialize_department d) = Some (Department.url d) ∧
  ∀ bs, dict_set (u "boards") (JList (map Board.to_dict bs))
          (serialize_department d)
        = Some (serialize_department
                  (Department.Build_t (Department.id d) (Department.name d)
                     (Department.url d) bs)).
Proof. by destruct d. Qed.

Lemma serialize_college_keys c :
  get_list (u "departments") (serialize_college c)
    = Some (map serialize_department (College.departments c)) ∧
  ∀ ds, dict_set (u "departments") (JList (map serialize_department ds))
          (serialize_college c)
        = Some (serialize_college (College.Build_t (College.name c) ds)).
Proof.
  destruct c as [name ds].
  unfold serialize_college, serialize_department, College.to_dict,
    College.map_boards, get_list.
  simpl. split; [by rewrite map_map|]. intros ds'. by rewrite map_map.
Qed.

Lemma serialize_campus_keys c :
  get_str (u "campus") (serialize_campus c) = Some (Campus.campus c) ∧
  get_list (u "colleges") (serialize_campus c)
    = Some (map serialize_college (Campus.colleges c)) ∧
  ∀ cs, dict_set (u "colleges") (JList (map serialize_college cs))
          (serialize_campus c)
        = Some (serialize_campus (Campus.Build_t (Campus.campus c) cs)).
Proof.
  destruct c as [name cs].
  unfold serialize_campus, serialize_college, Campus.to_dict,
    Campus.map_boards, get_list, get_str.
  simpl. split; [done|]. split; [by rewrite map_map|].
  intros cs'. by rewrite map_map.
Qed.

Lemma first_raise_app l1 l2 :
  first_raise (l1 ++ l2) =
  match first_raise l1 with
  | Some e => Some e
  | None => first_raise l2
  end.
Proof.
  induction l1 as [|entry l1 IH]; simpl; [done|].
  by destruct (value (department_discovery (fst entry) (snd entry))).
Qed.

Lemma discovered_entries_app l1 l2 :
  discovered_entries (l1 ++ l2) =
  match first_raise l1 with
  | Some _ => discovered_entries l1
  | None => l1 ++ discovered_entries l2
  end.
Proof.
  induction l1 as [|entry l1 IH]; simpl; [done|].
  destruct (value (department_discovery (fst entry) (snd entry))); [|done].
  rewrite IH. by destruct (first_raise l1).
Qed.

(** No discovery raises exactly when every discovery returns. *)
Lemma first_raise_None entries :
  first_raise entries = None ↔
  ∀ entry, entry ∈ entries →
    ∃ result, value (department_discovery (fst entry) (snd entry)) = Ok result.
Proof.
  induction entries as [|entry entries IH]; simpl.
  { split; [intros _ entry Hin; by apply elem_of_nil in Hin | done]. }
  destruct (value (department_discovery (fst entry) (snd entry)))
    as [result|e] eqn:Hd.
  - rewrite IH. split.
    + intros Hall entry' Hin. apply elem_of_cons in Hin as [-> | Hin];
        [by exists result | by apply Hall].
    + intros Hall entry' Hin. apply Hall. by right.
  - split; [done|]. intros Hall.
    destruct (Hall entry) as [result Hresult]; [left|]. congruence.
Qed.

(** A discovery raises first exactly when the departments before it
    return. *)
Lemma first_raise_Some entries e :
  first_raise entries = Some e ↔
  ∃ pre entry post,
    entries = pre ++ entry :: post ∧
    first_raise pre = None ∧
    value (department_discovery (fst entry) (snd entry)) = Raise e.
Proof.
  induction entries as [|entry entries IH]; simpl.
  { split; [done|]. intros (pre & entry & post & Heq & _).
    by destruct pre. }
  destruct (value (department_discovery (fst entry) (snd entry)))
    as [result|e0] eqn:Hd.
  - rewrite IH. split.
    + intros (pre & entry' & post & -> & Hpre & Hraise).
      exists (entry :: pre), entry', post. split; [done|].
      split; [|done]. simpl. by rewrite Hd.
    + intros (pre & entry' & post & Heq & Hpre & Hraise).
      destruct pre as [|entry0 pre]; simpl in Heq; injection Heq as <- ->.
      * congruence.
      * simpl in Hpre. rewrite Hd in Hpre. by exists pre, entry', post.
  - split.
    + intros [=<-]. by exists [], entry, entries.
    + intros (pre & entry' & post & Heq & Hpre & Hraise).
      destruct pre as [|entry0 pre]; simpl in Heq; injection Heq as <- ->.
      * congruence.
      * simpl in Hpre. by rewrite Hd in Hpre.
Qed.

Lemma discovered_entries_split pre entry post e :
  first_raise pre = None →
  value (department_discovery (fst entry) (snd entry)) = Raise e →
  discovered_entries (pre ++ entry :: post) = pre ++ [entry].
Proof.
  intros Hpre Hraise. rewrite discovered_entries_app, Hpre. simpl.
  by rewrite Hraise.
Qed.

Lemma discovered_entries_all entries :
  first_raise entries = None → discovered_entries entries = entries.
Proof.
  induction entries as [|entry entries IH]; simpl; [done|].
  destruct (value (department_discovery (fst entry) (snd entry))); [|done].
  intros Hnone. by rewrite IH.
Qed.

Lemma effexc_bind_key {A B} (a : A) (k : A → EffExc B) :
  raising (key_error (Some a)) ≫= k = k a.
Proof. unfold mbind, effexc_bind, raising. simpl. by destruct (k a). Qed.

Lemma effexc_bind_pair {A B} (r : exc A) (l : list Call) (k : A → EffExc B) :
  ((r, l) : EffExc A) ≫= k =
  match r with
  | Ok a => (value (k a), l ++ calls (k a))
  | Raise e => (Raise e, l)
  end.
Proof.
  unfold mbind, effexc_bind. destruct r as [a|e]; [|done]. by destruct (k a).
Qed.

(** The loop over the departments of a college, on the dictionaries of
    departments. *)
Lemma main_departments_spec campus_name ds items :
  main_departments campus_name (map serialize_department ds) items =
  (match first_raise (map (pair campus_name) ds) with
   | None =>
     Ok (map (λ d, serialize_department (discovered_department campus_name d))
           ds,
         items ++ omap review_item (map (pair campus_name) ds))
   | Some e => Raise e
   end,
   concat (map discovery_calls
             (discovered_entries (map (pair campus_name) ds)))).
Proof.
  revert items. induction ds as [|d ds IH]; intros items.
  { simpl. by rewrite app_nil_r. }
  cbn [map main_departments first_raise discovered_entries].
  destruct (serialize_department_keys d) as (-> & -> & Hset).
  rewrite effexc_bind_key. cbv beta. rewrite effexc_bind_key. cbv beta.
  unfold discovered_department, discovered_boards, review_item,
    discovery_calls, department_discovery in *.
  cbn [omap list_omap map concat fst snd].
  destruct (discover_boards _ (Department.url d)) as [[result|e] log] eqn:Hd.
  2: { unfold mbind, effexc_bind. cbn [value fst snd map concat].
       rewrite Hd. simpl. by rewrite app_nil_r. }
  unfold mbind at 1, effexc_bind at 1. rewrite Hset, effexc_bind_key.
  unfold mbind, effexc_bind. cbn [value calls fst snd map concat].
  rewrite IH, Hd. cbn [mret effexc_ret calls snd].
  destruct (first_raise _) as [e|]; [done|].
  destruct (BoardDiscoveryResult.manual_review result) as [item|]; simpl.
  - by rewrite <- !app_assoc, app_nil_r.
  - by rewrite app_nil_r.
Qed.

Lemma main_colleges_spec campus_name cs items :
  main_colleges campus_name (map serialize_college cs) items =
  (match first_raise (college_departments campus_name cs) with
   | None =>
     Ok (map (λ c, serialize_college (discovered_college campus_name c)) cs,
         items ++ omap review_item (college_departments campus_name cs))
   | Some e => Raise e
   end,
   concat (map discovery_calls
             (discovered_entries (college_departments campus_name cs)))).
Proof.
  revert items. induction cs as [|c cs IH]; intros items.
  { simpl. by rewrite app_nil_r. }
  cbn [map main_colleges].
  destruct (serialize_college_keys c) as (-> & Hset).
  unfold college_departments. cbn [map concat].
  rewrite first_raise_app, discovered_entries_app.
  rewrite effexc_bind_key. cbv beta.
  rewrite main_departments_spec, effexc_bind_pair.
  destruct (first_raise (map (pair campus_name) (College.departments c)))
    as [e|] eqn:Hfirst; [done|].
  cbn [fst snd].
  rewrite <- (map_map (discovered_department campus_name) serialize_department).
  rewrite Hset, effexc_bind_key. cbv beta.
  rewrite IH, effexc_bind_pair.
  rewrite (discovered_entries_all _ Hfirst).
  destruct (first_raise _) as [e|]; cbn [value calls fst snd mret effexc_ret].
  - by rewrite map_app, concat_app.
  - rewrite omap_app, map_app, concat_app, app_nil_r.
    by rewrite <- !app_assoc.
Qed.

Lemma main_campuses_spec cs items :
  main_campuses (map serialize_campus cs) items =
  (match first_raise (campus_departments cs) with
   | None =>
     Ok (map (λ c, serialize_campus (discovered_campus c)) cs,
         items ++ omap review_item (campus_departments cs))
   | Some e => Raise e
   end,
   concat (map discovery_calls (discovered_entries (campus_departments cs)))).
Proof.
  revert items. induction cs as [|c cs IH]; intros items.
  { simpl. by rewrite app_nil_r. }
  cbn [map main_campuses].
  destruct (serialize_campus_keys c) as (-> & -> & Hset).
  unfold campus_departments. cbn [map concat].
  rewrite first_raise_app, discovered_entries_app.
  rewrite effexc_bind_key. cbv beta. rewrite effexc_bind_key. cbv beta.
  rewrite main_colleges_spec, effexc_bind_pair.
  destruct (first_raise (college_departments (Campus.campus c)
                           (Campus.colleges c)))
    as [e|] eqn:Hfirst; [done|].
  cbn [fst snd].
  rewrite <- (map_map (discovered_college (Campus.campus c)) serialize_college).
  rewrite Hset, effexc_bind_key. cbv beta.
  rewrite IH, effexc_bind_pair.
  rewrite (discovered_entries_all _ Hfirst).
  destruct (first_raise _) as [e|]; cbn [value calls fst snd mret effexc_ret].
  - by rewrite map_app, concat_app.
  - rewrite omap_app, map_app, concat_app, app_nil_r.
    by rewrite <- !app_assoc.
Qed.

(** [main] in full: what it returns or raises, what it saves and what it
    calls. *)
Lemma main_spec :
  main =
  (match value crawl_all_campuses with
   | [] => {| exit_code := Ok 1%Z; saved := [] |}
   | _ :: _ =>
     match first_raise (campus_departments (value crawl_all_campuses)) with
     | None =>
       {| exit_code := Ok 0%Z;
          saved :=
            [ (DEPARTMENTS_FILE,
               JList (map serialize_campus (value crawl_all_campuses)));
              (DEPARTMENTS_BOARDS_FILE,
               JList (map (λ c, serialize_campus (discovered_campus c))
                        (value crawl_all_campuses)));
              (MANUAL_REVIEW_FILE,
               JList (omap review_item
                        (campus_departments (value crawl_all_campuses)))) ] |}
     | Some e =>
       {| exit_code := Raise e;
          saved :=
            [ (DEPARTMENTS_FILE,
               JList (map serialize_campus (value crawl_all_campuses))) ] |}
     end
   end,
   calls crawl_all_campuses ++
   concat (map discovery_calls
             (discovered_entries
                (campus_departments (value crawl_all_campuses))))).
Proof.
  unfold main. destruct crawl_all_campuses as [[|c cs] log].
  { by unfold mbind, eff_bind; simpl. }
  unfold mbind, eff_bind, outcome. cbn [value calls fst snd].
  change (serialize_campus <$> c :: cs) with (map serialize_campus (c :: cs)).
  rewrite main_campuses_spec.
  destruct (first_raise _); simpl; by rewrite app_nil_r.
Qed.

End MainProperties.

Section MainTheorems.
Context `{E : Env}.





End MainTheorems.

(** ** Further properties of the sitemap search *)

Lemma find_first_match {A} (p : A → bool) pre x rest :
  Forall (λ a, p a = false) pre → p x = true →
  List.find p (pre ++ x :: rest) = Some x.
Proof.
  intros Hpre Hx. induction Hpre as [|a pre Ha _ IH]; simpl.
  - by rewrite Hx.
  - by rewrite Ha.
Qed.

Lemma find_no_match {A} (p : A → bool) l :
  Forall (λ a, p a = false) l → List.find p l = None.
Proof.
  intros Hl. induction Hl as [|a l Ha _ IH]; simpl; [done|]. by rewrite Ha.
Qed.

Section FurtherSitemapProperties.
Context `{E : Env}.


End FurtherSitemapProperties.

(** ** The further properties at the pages *)

Example crawl_mirae :
  value (@crawl_campus both_campuses_env mirae_url (u "미래캠퍼스"))
  = Some mirae_campus.
Proof. vm_compute. reflexivity. Qed.

Example crawl_both_campuses :
  value (@crawl_all_campuses both_campuses_env)
  = [sinchon_campus; mirae_campus].
Proof. vm_compute. reflexivity. Qed.

(** A sitemap link whose [href] has a bracket without its partner: the
    search raises and nothing is fetched. *)
Example scenario_malformed_sitemap_link :
  @_find_sitemap yonsei_env
    {| markup := []; anchors := [anchor (u "//[") (u "Sitemap")];
       main_h1 := None |} cs_url
  = (Raise ValueError, []).
Proof. vm_compute. reflexivity. Qed.

(** A department page with such a link: [main] raises after the fetch of
    the page and the call of the extraction, with one file saved, and the
    department after it is not discovered. *)
Example scenario_main_raises :
  exit_code (value (@main malformed_env)) = Raise ValueError ∧
  map fst (saved (value (@main malformed_env))) = [DEPARTMENTS_FILE] ∧
  calls (@main malformed_env)
  = [ CallGetSoup sinchon_url 10; CallGetSoup mirae_url 10;
      CallGetSoup cs_url 7; CallExtract malformed_soup cs_url ].
Proof. vm_compute. auto. Qed.

(** C5 (as stated, refuted). The URL [ftp://econ.yonsei.ac.kr/] has the
    shape [scheme://{subdomain}.yonsei.ac.kr/...] with the subdomain
    [econ], and its id is made from the name; the URL
    [https://econ.yonsei.ac.kr.evil.com/] has not that shape, and its id
    is [yonsei_econ]. *)
Lemma generate_department_id_other_scheme :
  spec_subdomain_pattern (u "ftp://econ.yonsei.ac.kr/") (u "econ") ∧
  @_generate_department_id yonsei_env (u "Econ Dept")
    (u "ftp://econ.yonsei.ac.kr/") = u "yonsei_econ_dept" ∧
  u "yonsei_econ_dept" ≠ u "yonsei_" ++ @lower yonsei_env (u "econ") ∧
  (∀ sub, ¬ spec_subdomain_pattern (u "https://econ.yonsei.ac.kr.evil.com/")
              sub) ∧
  @_generate_department_id yonsei_env (u "Econ Dept")
    (u "https://econ.yonsei.ac.kr.evil.com/") = u "yonsei_econ" ∧
  u "yonsei_econ"
    ≠ u "yonsei_" ++ replace_char 32 95 (@lower yonsei_env (u "Econ Dept")).
Proof.
  split.
  { exists (u "ftp"), []. split; [discriminate|]. split; [discriminate|].
    reflexivity. }
  split; [vm_compute; reflexivity|]. split; [vm_compute; discriminate|].
  split; [|split; [vm_compute; reflexivity | vm_compute; discriminate]].
  intros sub (scheme & rest & _ & _ & Heq).
  assert (Hc : contains (u ".yonsei.ac.kr/")
                 (u "https://econ.yonsei.ac.kr.evil.com/") = true).
  { apply contains_true. exists (scheme ++ u "://" ++ sub), rest.
    rewrite Heq. by rewrite <- !app_assoc. }
  vm_compute in Hc. discriminate Hc.
Qed.

Lemma extract_boards_distinct_ids_witness :
  @_extract_boards_from_soup yonsei_env cs_sitemap_soup cs_url None
    = Ok [cs_academic; cs_academic_2] ∧
  NoDup (Board.id <$> [cs_academic; cs_academic_2]).
Proof.
  assert (H : @_extract_boards_from_soup yonsei_env cs_sitemap_soup cs_url None
              = Ok [cs_academic; cs_academic_2]) by (vm_compute; reflexivity).
  split; [exact H|].
  exact (@extract_boards_distinct_ids yonsei_env cs_sitemap_soup cs_url None
           _ H).
Defined.

Lemma extract_boards_names_witness :
  @_extract_boards_from_soup yonsei_env cs_sitemap_soup cs_url None
    = Ok [cs_academic; cs_academic_2] ∧
  cs_academic ∈ [cs_academic; cs_academic_2] ∧
  ∃ link href keyword meta,
    link ∈ anchors cs_sitemap_soup ∧ a_href link = Some href ∧
    Board.name cs_academic = a_text link ∧
    Board.name cs_academic ≠ [] ∧ (length (Board.name cs_academic) ≤ 20)%nat ∧
    (keyword, meta) ∈ KEYWORD_MAP ∧
    contains keyword (Board.name cs_academic) = true ∧
    Forall (λ word, contains word href = false) board_link_blacklist.
Proof.
  assert (H : @_extract_boards_from_soup yonsei_env cs_sitemap_soup cs_url None
              = Ok [cs_academic; cs_academic_2]) by (vm_compute; reflexivity).
  assert (Hb : cs_academic ∈ [cs_academic; cs_academic_2]) by left.
  split; [exact H|]. split; [exact Hb|].
  exact (@extract_boards_names yonsei_env cs_sitemap_soup cs_url None
           _ cs_academic H Hb).
Defined.

Lemma extract_boards_selectors_source_witness :
  @_extract_boards_from_soup yonsei_env cs_sitemap_soup cs_url None
    = Ok [cs_academic; cs_academic_2] ∧
  cs_academic_2 ∈ [cs_academic; cs_academic_2] ∧
  contains (u ".do") (Board.url cs_academic_2) = true ∧
  board_selectors cs_academic_2 = yonsei_cms_selectors.
Proof.
  assert (H : @_extract_boards_from_soup yonsei_env cs_sitemap_soup cs_url None
              = Ok [cs_academic; cs_academic_2]) by (vm_compute; reflexivity).
  assert (Hb : cs_academic_2 ∈ [cs_academic; cs_academic_2])
    by (right; left).
  split; [exact H|]. split; [exact Hb|].
  apply (proj2 (proj2 (@extract_boards_selectors_source yonsei_env
                         cs_sitemap_soup cs_url None _ cs_academic_2 H Hb)));
    vm_compute; reflexivity.
Defined.

Lemma discover_boards_result_boards_witness :
  value (@discover_boards yonsei_env cs_info cs_url)
    = Ok {| BoardDiscoveryResult.boards := [cs_academic; cs_academic_2];
            BoardDiscoveryResult.manual_review := None |} ∧
  cs_academic ∈ [cs_academic; cs_academic_2] ∧
  @same_netloc yonsei_env (Board.url cs_academic) cs_url ∧
  (1 ≤ length (Board.name cs_academic) ≤ 20)%nat.
Proof.
  assert (H : value (@discover_boards yonsei_env cs_info cs_url)
              = Ok {| BoardDiscoveryResult.boards := [cs_academic; cs_academic_2];
                      BoardDiscoveryResult.manual_review := None |})
    by (vm_compute; reflexivity).
  assert (Hb : cs_academic ∈ [cs_academic; cs_academic_2]) by left.
  split; [exact H|]. split; [exact Hb|].
  exact (proj2 (proj2 (proj2 (@discover_boards_result_boards yonsei_env
                                cs_info cs_url _ H))) cs_academic Hb).
Defined.

Lemma clean_header_text_clean_witness :
  head (clean_header_text (header (u "컴퓨터과학과 교수진 소개") []))
    = Some 52980%N ∧
  isspace 52980 = false.
Proof.
  assert (H : head (clean_header_text (header (u "컴퓨터과학과 교수진 소개") []))
              = Some 52980%N) by (vm_compute; reflexivity).
  split; [exact H|].
  exact (proj1 (proj2 (proj2 (clean_header_text_clean
                                (header (u "컴퓨터과학과 교수진 소개") []))))
           52980%N H).
Defined.

Lemma generate_department_id_shape_witness :
  (∀ sub, ¬ matches_subdomain_pattern (u "NOT_FOUND") sub) ∧
  @_generate_department_id yonsei_env (u "물리 치료학과") (u "NOT_FOUND")
    = u "yonsei_" ++ replace_char 32 95 (@lower yonsei_env (u "물리 치료학과")) ∧
  (32%N ∉ @_generate_department_id yonsei_env (u "물리 치료학과") (u "NOT_FOUND")).
Proof.
  assert (H : ∀ sub, ¬ matches_subdomain_pattern (u "NOT_FOUND") sub).
  { intros sub (scheme & rest & [-> | ->] & _ & _ & Heq); discriminate Heq. }
  split; [exact H|].
  exact (proj1 (proj2 (@generate_department_id_shape yonsei_env
                         (u "물리 치료학과") (u "NOT_FOUND"))) H).
Defined.


Lemma crawl_campus_distinct_departments_witness :
  value (@crawl_campus both_campuses_env mirae_url (u "미래캠퍼스"))
    = Some mirae_campus ∧
  health_sciences ∈ Campus.colleges mirae_campus ∧
  NoDup (Department.name <$> College.departments health_sciences).
Proof.
  assert (H : value (@crawl_campus both_campuses_env mirae_url (u "미래캠퍼스"))
              = Some mirae_campus) by (vm_compute; reflexivity).
  assert (Hc : health_sciences ∈ Campus.colleges mirae_campus) by left.
  split; [exact H|]. split; [exact Hc|].
  exact (@crawl_campus_distinct_departments both_campuses_env mirae_url
           (u "미래캠퍼스") mirae_campus health_sciences H Hc).
Defined.

Lemma crawl_campus_entities_witness :
  value (@crawl_campus both_campuses_env mirae_url (u "미래캠퍼스"))
    = Some mirae_campus ∧
  ∃ text headers,
    @requests_get both_campuses_env mirae_url 10 = Some text ∧
    main_h1 (@BeautifulSoup both_campuses_env text) = Some headers ∧
    ∀ c, c ∈ Campus.colleges mirae_campus →
      (∃ header, header ∈ headers ∧ College.name c = clean_header_text header) ∧
      college_pattern_search (College.name c) = true ∧
      ∀ d, d ∈ College.departments c →
        ∃ header, header ∈ headers ∧
                  @department_from_header both_campuses_env header d.
Proof.
  assert (H : value (@crawl_campus both_campuses_env mirae_url (u "미래캠퍼스"))
              = Some mirae_campus) by (vm_compute; reflexivity).
  split; [exact H|].
  exact (@crawl_campus_entities both_campuses_env mirae_url (u "미래캠퍼스")
           mirae_campus H).
Defined.

Lemma crawl_campus_counts_witness :
  value (@crawl_campus both_campuses_env mirae_url (u "미래캠퍼스"))
    = Some mirae_campus ∧
  ∃ text headers,
    @requests_get both_campuses_env mirae_url 10 = Some text ∧
    main_h1 (@BeautifulSoup both_campuses_env text) = Some headers ∧
    (length (Campus.colleges mirae_campus)
       ≤ length (filter (λ h, is_college_header h = true) headers))%nat ∧
    (total_departments (Campus.colleges mirae_campus)
       ≤ length (filter (λ h, is_college_header h = false) headers))%nat.
Proof.
  assert (H : value (@crawl_campus both_campuses_env mirae_url (u "미래캠퍼스"))
              = Some mirae_campus) by (vm_compute; reflexivity).
  split; [exact H|].
  exact (@crawl_campus_counts both_campuses_env mirae_url (u "미래캠퍼스")
           mirae_campus H).
Defined.

Lemma crawl_campus_before_first_college_witness :
  value (@crawl_campus both_campuses_env mirae_url (u "미래캠퍼스"))
    = Some mirae_campus ∧
  @requests_get both_campuses_env mirae_url 10 = Some mirae_text ∧
  main_h1 (@BeautifulSoup both_campuses_env mirae_text)
    = Some (take 1 mirae_headers ++ drop 1 mirae_headers) ∧
  Forall (λ h, is_college_header h = false) (take 1 mirae_headers) ∧
  Campus.colleges mirae_campus
    = colleges (@crawl_state both_campuses_env (drop 1 mirae_headers)).
Proof.
  assert (H : value (@crawl_campus both_campuses_env mirae_url (u "미래캠퍼스"))
              = Some mirae_campus) by (vm_compute; reflexivity).
  assert (Hget : @requests_get both_campuses_env mirae_url 10 = Some mirae_text)
    by (vm_compute; reflexivity).
  assert (Hmain : main_h1 (@BeautifulSoup both_campuses_env mirae_text)
                  = Some (take 1 mirae_headers ++ drop 1 mirae_headers))
    by (vm_compute; reflexivity).
  assert (Hpre : Forall (λ h, is_college_header h = false)
                   (take 1 mirae_headers)).
  { apply Forall_cons. split; [vm_compute; reflexivity | apply Forall_nil_2]. }
  split; [exact H|]. split; [exact Hget|]. split; [exact Hmain|].
  split; [exact Hpre|].
  exact (proj1 (@crawl_campus_before_first_college both_campuses_env mirae_url
                  (u "미래캠퍼스") mirae_campus mirae_text
                  (take 1 mirae_headers) (drop 1 mirae_headers)
                  H Hget Hmain Hpre)).
Defined.






